(** * HC-SR04 ultrasonic range sensor driver (hcsr04.py)

    A shallow embedding of the MicroPython driver class [HCSR04] and the
    properties of its temperature handling, pulse generation and unit
    conversions.

    Conventions of the embedding:
    - The class is embedded twice.  In the first embedding Python numbers
      that may be floats ([air_temp], [sound_speed], the working range) are
      real numbers: arithmetic on them is exact, and there is no NaN and no
      infinity.  It carries the properties in which rounding and NaN play
      no part.  The second embedding, [Binary64], has Python's floats as
      IEEE binary64 values (the primitive floats): NaN, infinities,
      rounding, and the exceptions of [int], [float] and [math.sqrt].  It
      carries what depends on them.
    - Integers that the platform hands out (pin numbers, microseconds,
      pulse widths) are in [Z].
    - A Python call either returns a value or raises: [result].
    - Code that mutates an object or talks to the board runs in the state
      and exception monad [M]; a raised exception keeps the state changes
      made before it, as in Python.
    - The board is what the driver can observe of the hardware: the log
      of the calls made to [machine] and [utime], and the replies that
      [machine.time_pulse_us] is going to give. *)

From Stdlib Require Import Reals Lra Lia ZArith Bool String List Zfloor.
From Stdlib Require Floats.
Import ListNotations.

Open Scope R_scope.

(** ** Exceptions and results *)

(** The exception values the driver meets: [Exception(msg)], which is what
    the driver itself constructs; [OSError(errno)], which stands for what
    the [machine] module may raise; and the [ValueError] and [OverflowError]
    that Python's own [int], [float] and [math.sqrt] raise. *)
Inductive exn : Type :=
| Exception (msg : string)
| OSError (errno : Z)
| ValueError
| OverflowError.

Inductive result (A : Type) : Type :=
| Ok (a : A)
| Raise (e : exn).

Arguments Ok {A} a.
Arguments Raise {A} e.

Definition is_ok {A} (r : result A) : bool :=
  match r with Ok _ => true | Raise _ => false end.

(** The exception a call ended with, if any. *)
Definition failure {A} (r : result A) : option exn :=
  match r with Ok _ => None | Raise e => Some e end.

(** ** The state and exception monad *)

Definition M (S A : Type) : Type := S -> result A * S.

Definition ret {S A} (a : A) : M S A := fun s => (Ok a, s).

Definition bind {S A B} (c : M S A) (k : A -> M S B) : M S B :=
  fun s =>
    match c s with
    | (Ok a, s') => k a s'
    | (Raise e, s') => (Raise e, s')
    end.

Definition raise {S A} (e : exn) : M S A := fun s => (Raise e, s).

Definition get {S} : M S S := fun s => (Ok s, s).

Definition put {S} (s : S) : M S unit := fun _ => (Ok tt, s).

(** [try: body except Exception as ex: handler ex] *)
Definition try_except {S A} (body : M S A) (handler : exn -> M S A) : M S A :=
  fun s =>
    match body s with
    | (Ok a, s') => (Ok a, s')
    | (Raise ex, s') => handler ex s'
    end.

(** A result as a computation that leaves the state alone. *)
Definition lift {S A} (r : result A) : M S A := fun s => (r, s).

Declare Scope py_scope.
Delimit Scope py_scope with py.
Notation "x <- c ;; k" := (bind c (fun x => k))
  (at level 61, c at next level, right associativity) : py_scope.
Notation "c ;; k" := (bind c (fun _ => k))
  (at level 61, right associativity) : py_scope.
Open Scope py_scope.

(** ** Python arithmetic on numbers *)

Definition Rgtb (a b : R) : bool := if Rgt_dec a b then true else false.
Definition Rltb (a b : R) : bool := if Rlt_dec a b then true else false.

(** [x // y] on floats: the floor of the quotient, still a float. *)
Definition floordiv (x y : R) : R := IZR (Zfloor (x / y)).

(** [int(x)] on a float: truncation toward zero. *)
Definition py_int (x : R) : Z :=
  if Rle_dec 0 x then Zfloor x else Zceil x.

(** ** The board: [machine] and [utime] *)

Inductive pin_mode : Type := IN | OUT.

(** One entry of the log per call the driver makes to the platform. *)
Inductive event : Type :=
| EvPin (id : Z) (mode : pin_mode)                       (* Pin(id, mode=mode, pull=None) *)
| EvValue (id : Z) (v : Z)                               (* pin.value(v) *)
| EvSleepUs (us : Z)                                     (* sleep_us(us) *)
| EvTimePulseUs (id : Z) (pulse_level timeout_us : Z).   (* time_pulse_us(pin, pulse_level, timeout_us) *)

(** [events] is the log, oldest call first.  [echo_tape n] is the reply of
    the n-th coming call of [time_pulse_us]: the integer it returns or the
    exception it raises. *)
Record board : Type := {
  events : list event;
  echo_tape : nat -> result Z
}.

Definition log (e : event) : M board unit :=
  fun b => (Ok tt, {| events := events b ++ [e]; echo_tape := echo_tape b |}).

Module machine.

Record Pin : Type := { id : Z; mode : pin_mode }.

(** [Pin(id, mode=mode, pull=None)] *)
Definition new_Pin (id : Z) (mode : pin_mode) : M board Pin :=
  log (EvPin id mode) ;;
  ret {| id := id; mode := mode |}.

(** [pin.value(v)] *)
Definition value (pin : Pin) (v : Z) : M board unit :=
  log (EvValue (id pin) v).

(** [time_pulse_us(pin, pulse_level, timeout_us)]: the call is logged and
    the next reply of the tape is consumed. *)
Definition time_pulse_us (pin : Pin) (pulse_level timeout_us : Z) : M board Z :=
  fun b =>
    (echo_tape b 0%nat,
     {| events := events b ++ [EvTimePulseUs (id pin) pulse_level timeout_us];
        echo_tape := fun n => echo_tape b (S n) |}).

End machine.

Module utime.

Definition sleep_us (us : Z) : M board unit := log (EvSleepUs us).

End utime.

(** The level last written to the output pin [pin_id], if any. *)
Definition written_level (pin_id : Z) (evs : list event) : option Z :=
  fold_left
    (fun level e =>
       match e with
       | EvValue i v => if Z.eqb i pin_id then Some v else level
       | _ => level
       end)
    evs None.

(** ** class HCSR04 *)

Record HCSR04 : Type := {
  max_working_temp : R;
  min_working_temp : R;
  air_temperature : R;
  sound_speed : R;
  echo_timeout_us : Z;
  trigger : machine.Pin;
  echo : machine.Pin
}.

Definition set_air_temperature (self : HCSR04) (temperature : R) : HCSR04 :=
  {| max_working_temp := max_working_temp self;
     min_working_temp := min_working_temp self;
     air_temperature := temperature;
     sound_speed := sound_speed self;
     echo_timeout_us := echo_timeout_us self;
     trigger := trigger self;
     echo := echo self |}.

(** [_check_air_temp(self, temperature)].  The method reads [self] only
    through [min_working_temp] and [max_working_temp]; they are arguments
    here because [__init__] calls it before the other attributes exist. *)
Definition _check_air_temp {S} (min_working_temp max_working_temp : R)
    (temperature : R) : M S R :=
  try_except
    (if Rgtb min_working_temp temperature || Rltb max_working_temp temperature
     then raise (Exception "temperature out of range")
     else ret temperature)
    (fun ex => raise ex).

(** [_get_sound_speed(self)], which reads [self.air_temperature] only. *)
Definition _get_sound_speed (air_temperature : R) : R :=
  let ss := 20.05 * sqrt (air_temperature + 273.15) in
  let ss := ss / 1000 in
  ss.

Definition default_echo_timeout_us : Z := 500 * 2 * 30.
Definition default_air_temp : R := 20.

Definition __init__ (trigger_pin echo_pin : Z) (echo_timeout_us : Z)
    (air_temp : R) : M board HCSR04 :=
  let max_working_temp := 70 in
  let min_working_temp := -15 in
  air_temperature <- _check_air_temp min_working_temp max_working_temp air_temp ;;
  let sound_speed := _get_sound_speed air_temperature in
  trigger <- machine.new_Pin trigger_pin OUT ;;
  machine.value trigger 0 ;;
  echo <- machine.new_Pin echo_pin IN ;;
  ret {| max_working_temp := max_working_temp;
         min_working_temp := min_working_temp;
         air_temperature := air_temperature;
         sound_speed := sound_speed;
         echo_timeout_us := echo_timeout_us;
         trigger := trigger;
         echo := echo |}.

Definition _send_pulse_and_wait (self : HCSR04) : M board Z :=
  machine.value (trigger self) 0 ;;
  utime.sleep_us 5 ;;
  machine.value (trigger self) 1 ;;
  utime.sleep_us 10 ;;
  machine.value (trigger self) 0 ;;
  try_except
    (pulse_time <- machine.time_pulse_us (echo self) 1 (echo_timeout_us self) ;;
     if Z.ltb pulse_time 0
     then raise (Exception "out of range")
     else ret pulse_time)
    (fun ex => raise ex).

(** [update_air_temp(self, temperature)]; the state is the object. *)
Definition update_air_temp (temperature : R) : M HCSR04 unit :=
  try_except
    (self <- get ;;
     if Rgtb (min_working_temp self) temperature
        || Rltb (max_working_temp self) temperature
     then raise (Exception "temperature out of range")
     else put (set_air_temperature self temperature))
    (fun ex => raise ex).

Definition distance_mm (self : HCSR04) : M board Z :=
  pulse_time <- _send_pulse_and_wait self ;;
  let mm := py_int (floordiv (sound_speed self * IZR pulse_time) 2) in
  ret mm.

Definition distance_cm (self : HCSR04) : M board R :=
  pulse_time <- _send_pulse_and_wait self ;;
  let cms := (sound_speed self * IZR pulse_time) / 20 in
  ret cms.

Definition distance_in (self : HCSR04) : M board R :=
  pulse_time <- _send_pulse_and_wait self ;;
  let inches := (sound_speed self * IZR pulse_time) / 50.8 in
  ret inches.

(** ** Clients of the driver *)

(** A call a client makes on a constructed sensor. *)
Inductive call : Type :=
| UpdateAirTemp (temperature : R)
| DistanceMm
| DistanceCm
| DistanceIn.

(** The sensor and the board after one call; what the call returned or
    raised is dropped, as by a client that goes on after a failure. *)
Definition do_call (st : HCSR04 * board) (c : call) : HCSR04 * board :=
  let (self, b) := st in
  match c with
  | UpdateAirTemp temperature => (snd (update_air_temp temperature self), b)
  | DistanceMm => (self, snd (distance_mm self b))
  | DistanceCm => (self, snd (distance_cm self b))
  | DistanceIn => (self, snd (distance_in self b))
  end.

Definition session (calls : list call) (st : HCSR04 * board) : HCSR04 * board :=
  fold_left do_call calls st.

(** The calls that [_send_pulse_and_wait] makes to the platform, in order. *)
Definition pulse_events (self : HCSR04) : list event :=
  [ EvValue (machine.id (trigger self)) 0;
    EvSleepUs 5;
    EvValue (machine.id (trigger self)) 1;
    EvSleepUs 10;
    EvValue (machine.id (trigger self)) 0;
    EvTimePulseUs (machine.id (echo self)) 1 (echo_timeout_us self) ].

(** What the guard of [_send_pulse_and_wait] makes of the reply of
    [time_pulse_us]. *)
Definition checked_pulse (reply : result Z) : result Z :=
  match reply with
  | Ok pulse_time =>
      if Z.ltb pulse_time 0 then Raise (Exception "out of range")
      else Ok pulse_time
  | Raise ex => Raise ex
  end.

(** The board after one measurement cycle. *)
Definition after_pulse (self : HCSR04) (b : board) : board :=
  {| events := events b ++ pulse_events self;
     echo_tape := fun n => echo_tape b (S n) |}.

(** The working range the constructor installs. *)
Definition in_working_range (t : R) : Prop := -15 <= t <= 70.

Definition datasheet_range (self : HCSR04) : Prop :=
  min_working_temp self = -15 /\ max_working_temp self = 70.

(** A board on which nothing has happened yet and whose echo line always
    gives the same reply. *)
Definition fresh_board (reply : result Z) : board :=
  {| events := []; echo_tape := fun _ => reply |}.

(** The sensor that [HCSR04(5, 18)] builds: default timeout, 20 degrees. *)
Definition bench_sensor : HCSR04 :=
  {| max_working_temp := 70;
     min_working_temp := -15;
     air_temperature := default_air_temp;
     sound_speed := _get_sound_speed default_air_temp;
     echo_timeout_us := default_echo_timeout_us;
     trigger := {| machine.id := 5; machine.mode := OUT |};
     echo := {| machine.id := 18; machine.mode := IN |} |}.

(** Whether a call runs a measurement cycle. *)
Definition is_measurement (c : call) : bool :=
  match c with
  | UpdateAirTemp _ => false
  | DistanceMm | DistanceCm | DistanceIn => true
  end.

(** The number of measurement cycles among some calls. *)
Definition cycles (calls : list call) : nat :=
  length (filter is_measurement calls).

(** The platform calls that some calls on the sensor [self] make, in order. *)
Definition session_events (self : HCSR04) (calls : list call) : list event :=
  flat_map (fun c => if is_measurement c then pulse_events self else []) calls.

(** A board whose echo line gives [first] to the next measurement and
    [then_on] to all later ones. *)
Definition board_replying (first then_on : result Z) : board :=
  {| events := [];
     echo_tape := fun n => match n with O => first | S _ => then_on end |}.

(** Whether every write of a level other than 0 in a log is a write of 1
    that is directly followed by [sleep_us(10)] and the write of 0 to the
    same pin. *)
Fixpoint high_is_pulse (evs : list event) : bool :=
  match evs with
  | [] => true
  | EvValue i v :: rest =>
      (if Z.eqb v 0 then true
       else match rest with
            | EvSleepUs us :: EvValue j w :: _ =>
                Z.eqb v 1 && Z.eqb us 10 && Z.eqb j i && Z.eqb w 0
            | _ => false
            end)
      && high_is_pulse rest
  | _ :: rest => high_is_pulse rest
  end.

(** ** class HCSR04 on binary64 floats

    The same methods with Python's floats as IEEE binary64 values, as in
    CPython and in the MicroPython ports built with double precision.  A
    temperature or a bound given as an int is the float of the same value.
    The arithmetic is the primitive one; [//], [int] and [float] read and
    build floats through their sign, mantissa and exponent. *)

Module Binary64.

Import PrimFloat SpecFloat FloatOps.
#[local] Set Warnings "-inexact-float".
#[local] Open Scope float_scope.

(** The integer [(-1)^s * m]. *)
Definition signed (s : bool) (m : positive) : Z := cond_Zopp s (Zpos m).

(** The real number that a finite float stands for; 0 for the others. *)
Definition float_value (x : float) : R :=
  match Prim2SF x with
  | S754_finite s m e => (IZR (signed s m) * powerRZ 2 e)%R
  | _ => 0%R
  end.

(** [float(n)], the conversion that [float * int] applies to the int: the
    nearest float, or [OverflowError] when that is beyond the largest. *)
Definition float_of_int (n : Z) : result float :=
  match binary_normalize prec emax n 0 false with
  | S754_infinity _ => Raise OverflowError
  | x => Ok (SF2Prim x)
  end.

(** The floor of half the value [(-1)^s * m * 2^e]. *)
Definition half_floor (s : bool) (m : positive) (e : Z) : Z :=
  if (1 <=? e)%Z then (signed s m * 2 ^ (e - 1))%Z
  else (signed s m / 2 ^ (1 - e))%Z.

(** [x // 2]: the float of the floor of half of [x].  With an exponent of 1
    or more [x] is an even integer and its half has the same mantissa;
    below, the floor is an integer under 2^53.  Both are floats, so nothing
    is rounded.  NaN and the infinities give NaN, a zero gives itself. *)
Definition floordiv2 (x : float) : float :=
  match Prim2SF x with
  | S754_nan | S754_infinity _ => nan
  | S754_zero _ => x
  | S754_finite s m e =>
      if (1 <=? e)%Z then SF2Prim (S754_finite s m (e - 1))
      else SF2Prim (binary_normalize prec emax (half_floor s m e) 0 false)
  end.

(** [int(x)]: truncation toward zero; NaN and the infinities raise. *)
Definition int (x : float) : result Z :=
  match Prim2SF x with
  | S754_nan => Raise ValueError
  | S754_infinity _ => Raise OverflowError
  | S754_zero _ => Ok 0%Z
  | S754_finite s m e =>
      Ok (if (0 <=? e)%Z then (signed s m * 2 ^ e)%Z
          else cond_Zopp s (Zpos m / 2 ^ (- e)))%Z
  end.

(** [math.sqrt(x)]: a negative argument raises. *)
Definition math_sqrt (x : float) : result float :=
  if x <? 0 then Raise ValueError else Ok (sqrt x).

Record HCSR04 : Type := {
  max_working_temp : float;
  min_working_temp : float;
  air_temperature : float;
  sound_speed : float;
  echo_timeout_us : Z;
  trigger : machine.Pin;
  echo : machine.Pin
}.

Definition set_air_temperature (self : HCSR04) (temperature : float) : HCSR04 :=
  {| max_working_temp := max_working_temp self;
     min_working_temp := min_working_temp self;
     air_temperature := temperature;
     sound_speed := sound_speed self;
     echo_timeout_us := echo_timeout_us self;
     trigger := trigger self;
     echo := echo self |}.

(** [_check_air_temp(self, temperature)]; [min > t] is [t < min]. *)
Definition _check_air_temp {S} (min_working_temp max_working_temp : float)
    (temperature : float) : M S float :=
  try_except
    (if (temperature <? min_working_temp) || (max_working_temp <? temperature)
     then raise (Exception "temperature out of range")
     else ret temperature)
    (fun ex => raise ex).

(** [_get_sound_speed(self)] *)
Definition _get_sound_speed {S} (air_temperature : float) : M S float :=
  root <- lift (math_sqrt (air_temperature + 273.15)) ;;
  let ss := 20.05 * root in
  let ss := ss / 1000 in
  ret ss.

Definition __init__ (trigger_pin echo_pin : Z) (echo_timeout_us : Z)
    (air_temp : float) : M board HCSR04 :=
  let max_working_temp := 70 in
  let min_working_temp := -15 in
  air_temperature <- _check_air_temp min_working_temp max_working_temp air_temp ;;
  sound_speed <- _get_sound_speed air_temperature ;;
  trigger <- machine.new_Pin trigger_pin OUT ;;
  machine.value trigger 0 ;;
  echo <- machine.new_Pin echo_pin IN ;;
  ret {| max_working_temp := max_working_temp;
         min_working_temp := min_working_temp;
         air_temperature := air_temperature;
         sound_speed := sound_speed;
         echo_timeout_us := echo_timeout_us;
         trigger := trigger;
         echo := echo |}.

Definition _send_pulse_and_wait (self : HCSR04) : M board Z :=
  machine.value (trigger self) 0 ;;
  utime.sleep_us 5 ;;
  machine.value (trigger self) 1 ;;
  utime.sleep_us 10 ;;
  machine.value (trigger self) 0 ;;
  try_except
    (pulse_time <- machine.time_pulse_us (echo self) 1 (echo_timeout_us self) ;;
     if Z.ltb pulse_time 0
     then raise (Exception "out of range")
     else ret pulse_time)
    (fun ex => raise ex).

Definition update_air_temp (temperature : float) : M HCSR04 unit :=
  try_except
    (self <- get ;;
     if (temperature <? min_working_temp self)
        || (max_working_temp self <? temperature)
     then raise (Exception "temperature out of range")
     else put (set_air_temperature self temperature))
    (fun ex => raise ex).

Definition distance_mm (self : HCSR04) : M board Z :=
  pulse_time <- _send_pulse_and_wait self ;;
  pulse <- lift (float_of_int pulse_time) ;;
  mm <- lift (int (floordiv2 (sound_speed self * pulse))) ;;
  ret mm.

Definition distance_cm (self : HCSR04) : M board float :=
  pulse_time <- _send_pulse_and_wait self ;;
  pulse <- lift (float_of_int pulse_time) ;;
  let cms := (sound_speed self * pulse) / 20 in
  ret cms.

Definition distance_in (self : HCSR04) : M board float :=
  pulse_time <- _send_pulse_and_wait self ;;
  pulse <- lift (float_of_int pulse_time) ;;
  let inches := (sound_speed self * pulse) / 50.8 in
  ret inches.

(** A call a client makes on a constructed sensor. *)
Inductive call : Type :=
| UpdateAirTemp (temperature : float)
| DistanceMm
| DistanceCm
| DistanceIn.

Definition do_call (st : HCSR04 * board) (c : call) : HCSR04 * board :=
  let (self, b) := st in
  match c with
  | UpdateAirTemp temperature => (snd (update_air_temp temperature self), b)
  | DistanceMm => (self, snd (distance_mm self b))
  | DistanceCm => (self, snd (distance_cm self b))
  | DistanceIn => (self, snd (distance_in self b))
  end.

Definition session (calls : list call) (st : HCSR04 * board) : HCSR04 * board :=
  fold_left do_call calls st.

(** The bounds are the datasheet's and the stored temperature passes the
    guard of the range checks. *)
Definition passes_guard (self : HCSR04) : Prop :=
  min_working_temp self = -15
  /\ max_working_temp self = 70
  /\ (air_temperature self <? -15) || (70 <? air_temperature self) = false.

(** The sensor that [HCSR04(5, 18)] builds: default timeout, 20 degrees. *)
Definition bench_sensor : HCSR04 :=
  {| max_working_temp := 70;
     min_working_temp := -15;
     air_temperature := 20;
     sound_speed := (20.05 * sqrt (20 + 273.15)) / 1000;
     echo_timeout_us := default_echo_timeout_us;
     trigger := {| machine.id := 5; machine.mode := OUT |};
     echo := {| machine.id := 18; machine.mode := IN |} |}.

(** The sensor that [HCSR04(5, 18, air_temp=41.88915885456865)] builds. *)
Definition warm_sensor : HCSR04 :=
  {| max_working_temp := 70;
     min_working_temp := -15;
     air_temperature := 41.88915885456865;
     sound_speed := (20.05 * sqrt (41.88915885456865 + 273.15)) / 1000;
     echo_timeout_us := default_echo_timeout_us;
     trigger := {| machine.id := 5; machine.mode := OUT |};
     echo := {| machine.id := 18; machine.mode := IN |} |}.

(** The sensor that [HCSR04(5, 18, air_temp=float('nan'))] builds. *)
Definition nan_sensor : HCSR04 :=
  {| max_working_temp := 70;
     min_working_temp := -15;
     air_temperature := nan;
     sound_speed := nan;
     echo_timeout_us := default_echo_timeout_us;
     trigger := {| machine.id := 5; machine.mode := OUT |};
     echo := {| machine.id := 18; machine.mode := IN |} |}.

End Binary64.

(** * Properties *)

(** ** Comparisons and the range check *)

Lemma Rgtb_true (a b : R) : Rgtb a b = true <-> a > b.
Proof.
  unfold Rgtb. destruct (Rgt_dec a b); split; intros; auto; discriminate.
Qed.

Lemma Rltb_true (a b : R) : Rltb a b = true <-> a < b.
Proof.
  unfold Rltb. destruct (Rlt_dec a b); split; intros; auto; discriminate.
Qed.

(** The guard of both range checks is false exactly inside the closed
    interval. *)
Lemma out_of_range_false (lo hi t : R) :
  Rgtb lo t || Rltb hi t = false <-> lo <= t <= hi.
Proof.
  rewrite orb_false_iff. split.
  - intros [Hlo Hhi]. split.
    + apply Rnot_gt_le. intro H. apply Rgtb_true in H. congruence.
    + apply Rnot_lt_le. intro H. apply Rltb_true in H. congruence.
  - intros [Hlo Hhi]. split.
    + destruct (Rgtb lo t) eqn:E; auto. apply Rgtb_true in E. lra.
    + destruct (Rltb hi t) eqn:E; auto. apply Rltb_true in E. lra.
Qed.

Lemma out_of_range_true (lo hi t : R) :
  Rgtb lo t || Rltb hi t = true <-> t < lo \/ hi < t.
Proof.
  rewrite orb_true_iff, Rgtb_true, Rltb_true. unfold Rgt. tauto.
Qed.

Lemma check_air_temp_in {S} (lo hi t : R) (s : S) :
  lo <= t <= hi -> _check_air_temp lo hi t s = (Ok t, s).
Proof.
  intros H. apply out_of_range_false in H.
  unfold _check_air_temp, try_except. rewrite H. reflexivity.
Qed.

Lemma check_air_temp_out {S} (lo hi t : R) (s : S) :
  t < lo \/ hi < t ->
  _check_air_temp lo hi t s = (Raise (Exception "temperature out of range"), s).
Proof.
  intros H. apply out_of_range_true in H.
  unfold _check_air_temp, try_except. rewrite H. reflexivity.
Qed.

Lemma update_air_temp_in (self : HCSR04) (t : R) :
  min_working_temp self <= t <= max_working_temp self ->
  update_air_temp t self = (Ok tt, set_air_temperature self t).
Proof.
  intros H. apply out_of_range_false in H.
  unfold update_air_temp, try_except, bind, get. rewrite H. reflexivity.
Qed.

Lemma update_air_temp_out (self : HCSR04) (t : R) :
  t < min_working_temp self \/ max_working_temp self < t ->
  update_air_temp t self = (Raise (Exception "temperature out of range"), self).
Proof.
  intros H. apply out_of_range_true in H.
  unfold update_air_temp, try_except, bind, get. rewrite H. reflexivity.
Qed.

(** No path of [update_air_temp] assigns [sound_speed], nor the bounds. *)
Lemma update_air_temp_frame (self : HCSR04) (t : R) :
  let self' := snd (update_air_temp t self) in
  sound_speed self' = sound_speed self
  /\ min_working_temp self' = min_working_temp self
  /\ max_working_temp self' = max_working_temp self.
Proof.
  unfold update_air_temp, try_except, bind, get.
  destruct (Rgtb (min_working_temp self) t || Rltb (max_working_temp self) t);
    cbn; auto.
Qed.

(** ** The constructor *)

Lemma init_in (trigger_pin echo_pin timeout : Z) (t : R) (b : board) :
  in_working_range t ->
  __init__ trigger_pin echo_pin timeout t b =
  (Ok {| max_working_temp := 70;
         min_working_temp := -15;
         air_temperature := t;
         sound_speed := _get_sound_speed t;
         echo_timeout_us := timeout;
         trigger := {| machine.id := trigger_pin; machine.mode := OUT |};
         echo := {| machine.id := echo_pin; machine.mode := IN |} |},
   {| events := events b ++ [EvPin trigger_pin OUT; EvValue trigger_pin 0;
                             EvPin echo_pin IN];
      echo_tape := echo_tape b |}).
Proof.
  intros H. unfold __init__, bind at 1.
  rewrite (check_air_temp_in _ _ _ _ H).
  cbn. rewrite <- !app_assoc. reflexivity.
Qed.

Lemma init_out (trigger_pin echo_pin timeout : Z) (t : R) (b : board) :
  t < -15 \/ 70 < t ->
  __init__ trigger_pin echo_pin timeout t b =
  (Raise (Exception "temperature out of range"), b).
Proof.
  intros H. unfold __init__, bind at 1.
  rewrite (check_air_temp_out _ _ _ _ H). reflexivity.
Qed.

(** ** One measurement cycle *)

Lemma send_pulse_and_wait_eq (self : HCSR04) (b : board) :
  _send_pulse_and_wait self b =
  (checked_pulse (echo_tape b 0%nat), after_pulse self b).
Proof.
  unfold _send_pulse_and_wait, after_pulse, pulse_events, checked_pulse.
  unfold bind, try_except, machine.value, utime.sleep_us, log,
    machine.time_pulse_us, raise, ret.
  cbn. rewrite <- !app_assoc. cbn.
  destruct (echo_tape b 0%nat) as [p | ex]; [destruct (Z.ltb p 0) |]; reflexivity.
Qed.

Lemma distance_mm_eq (self : HCSR04) (b : board) :
  distance_mm self b =
  (match checked_pulse (echo_tape b 0%nat) with
   | Ok pulse_time =>
       Ok (py_int (floordiv (sound_speed self * IZR pulse_time) 2))
   | Raise ex => Raise ex
   end, after_pulse self b).
Proof.
  unfold distance_mm, bind. rewrite send_pulse_and_wait_eq.
  destruct (checked_pulse (echo_tape b 0%nat)); reflexivity.
Qed.

Lemma distance_cm_eq (self : HCSR04) (b : board) :
  distance_cm self b =
  (match checked_pulse (echo_tape b 0%nat) with
   | Ok pulse_time => Ok (sound_speed self * IZR pulse_time / 20)
   | Raise ex => Raise ex
   end, after_pulse self b).
Proof.
  unfold distance_cm, bind. rewrite send_pulse_and_wait_eq.
  destruct (checked_pulse (echo_tape b 0%nat)); reflexivity.
Qed.

Lemma distance_in_eq (self : HCSR04) (b : board) :
  distance_in self b =
  (match checked_pulse (echo_tape b 0%nat) with
   | Ok pulse_time => Ok (sound_speed self * IZR pulse_time / 50.8)
   | Raise ex => Raise ex
   end, after_pulse self b).
Proof.
  unfold distance_in, bind. rewrite send_pulse_and_wait_eq.
  destruct (checked_pulse (echo_tape b 0%nat)); reflexivity.
Qed.

(** A measured pulse width is never negative: the guard turned the negative
    replies into failures. *)
Lemma measured_pulse_nonneg (self : HCSR04) (b b' : board) (pulse_us : Z) :
  _send_pulse_and_wait self b = (Ok pulse_us, b') ->
  echo_tape b 0%nat = Ok pulse_us /\ (0 <= pulse_us)%Z /\ b' = after_pulse self b.
Proof.
  rewrite send_pulse_and_wait_eq. intros H. injection H as Hp Hb.
  unfold checked_pulse in Hp.
  destruct (echo_tape b 0%nat) as [p | ex]; [| discriminate].
  destruct (Z.ltb p 0) eqn:E; [discriminate |].
  injection Hp as ->. apply Z.ltb_ge in E. auto.
Qed.

Lemma measured_pulse_checked (self : HCSR04) (b b' : board) (pulse_us : Z) :
  _send_pulse_and_wait self b = (Ok pulse_us, b') ->
  checked_pulse (echo_tape b 0%nat) = Ok pulse_us /\ b' = after_pulse self b.
Proof.
  rewrite send_pulse_and_wait_eq. intros H. injection H as Hp Hb. auto.
Qed.

(** ** Python's [int] and [//] on the reals *)

Lemma py_int_IZR (z : Z) : py_int (IZR z) = z.
Proof.
  unfold py_int. destruct (Rle_dec 0 (IZR z)).
  - apply ZfloorZ.
  - unfold Zceil. rewrite ZfloorNZ. lia.
Qed.

Lemma py_int_floordiv (x y : R) : py_int (floordiv x y) = Zfloor (x / y).
Proof. unfold floordiv. apply py_int_IZR. Qed.

(** ** The speed of sound *)

Lemma get_sound_speed_pos (t : R) : -273.15 < t -> 0 < _get_sound_speed t.
Proof.
  intros H. unfold _get_sound_speed.
  assert (0 < sqrt (t + 273.15)) by (apply sqrt_lt_R0; lra).
  apply Rdiv_lt_0_compat; [| lra].
  apply Rmult_lt_0_compat; lra.
Qed.

Lemma get_sound_speed_lt (t u : R) :
  -273.15 <= t -> t < u -> _get_sound_speed t < _get_sound_speed u.
Proof.
  intros Ht Hu. unfold _get_sound_speed.
  assert (sqrt (t + 273.15) < sqrt (u + 273.15)) by (apply sqrt_lt_1; lra).
  apply Rmult_lt_compat_r; [lra |].
  apply Rmult_lt_compat_l; lra.
Qed.

(** ** The written level of the trigger line *)

Lemma written_level_app_pulse (self : HCSR04) (evs : list event) :
  written_level (machine.id (trigger self)) (evs ++ pulse_events self) = Some 0%Z.
Proof.
  unfold written_level. rewrite fold_left_app. cbn.
  rewrite Z.eqb_refl. reflexivity.
Qed.

Lemma written_level_app_init (trigger_pin echo_pin : Z) (evs : list event) :
  written_level trigger_pin
    (evs ++ [EvPin trigger_pin OUT; EvValue trigger_pin 0; EvPin echo_pin IN])
  = Some 0%Z.
Proof.
  unfold written_level. rewrite fold_left_app. cbn.
  rewrite Z.eqb_refl. reflexivity.
Qed.

(** ** What a session keeps *)

(** No call assigns any attribute other than [air_temperature]. *)
Lemma do_call_frame (st : HCSR04 * board) (c : call) :
  sound_speed (fst (do_call st c)) = sound_speed (fst st)
  /\ min_working_temp (fst (do_call st c)) = min_working_temp (fst st)
  /\ max_working_temp (fst (do_call st c)) = max_working_temp (fst st)
  /\ trigger (fst (do_call st c)) = trigger (fst st)
  /\ echo (fst (do_call st c)) = echo (fst st)
  /\ echo_timeout_us (fst (do_call st c)) = echo_timeout_us (fst st).
Proof.
  destruct st as [self b]. destruct c; cbn; auto 10.
  unfold update_air_temp, try_except, bind, get.
  destruct (Rgtb (min_working_temp self) temperature
            || Rltb (max_working_temp self) temperature); cbn; auto 10.
Qed.

Lemma session_frame (calls : list call) (st : HCSR04 * board) :
  sound_speed (fst (session calls st)) = sound_speed (fst st)
  /\ min_working_temp (fst (session calls st)) = min_working_temp (fst st)
  /\ max_working_temp (fst (session calls st)) = max_working_temp (fst st)
  /\ trigger (fst (session calls st)) = trigger (fst st)
  /\ echo (fst (session calls st)) = echo (fst st)
  /\ echo_timeout_us (fst (session calls st)) = echo_timeout_us (fst st).
Proof.
  revert st. induction calls as [| c calls IH]; intros st; cbn; [auto 10 |].
  destruct (IH (do_call st c)) as (H1 & H2 & H3 & H4 & H5 & H6).
  destruct (do_call_frame st c) as (F1 & F2 & F3 & F4 & F5 & F6).
  unfold session in *.
  rewrite H1, H2, H3, H4, H5, H6. auto 10.
Qed.

Lemma do_call_trigger_low (st : HCSR04 * board) (c : call) :
  written_level (machine.id (trigger (fst st))) (events (snd st)) = Some 0%Z ->
  written_level (machine.id (trigger (fst (do_call st c))))
    (events (snd (do_call st c))) = Some 0%Z.
Proof.
  intros H. destruct (do_call_frame st c) as (_ & _ & _ & -> & _).
  destruct st as [self b]. destruct c; cbn in *.
  - exact H.
  - rewrite distance_mm_eq. apply written_level_app_pulse.
  - rewrite distance_cm_eq. apply written_level_app_pulse.
  - rewrite distance_in_eq. apply written_level_app_pulse.
Qed.

Lemma session_trigger_low (calls : list call) (st : HCSR04 * board) :
  written_level (machine.id (trigger (fst st))) (events (snd st)) = Some 0%Z ->
  written_level (machine.id (trigger (fst (session calls st))))
    (events (snd (session calls st))) = Some 0%Z.
Proof.
  revert st. induction calls as [| c calls IH]; intros st H; cbn; [exact H |].
  apply IH. apply do_call_trigger_low. exact H.
Qed.

(** Every sensor that a session reaches from a successful construction
    still has the datasheet range and the speed of sound of the
    construction temperature. *)
Lemma session_after_init (trigger_pin echo_pin timeout : Z) (t : R)
    (b0 b1 : board) (self0 : HCSR04) (calls : list call) :
  __init__ trigger_pin echo_pin timeout t b0 = (Ok self0, b1) ->
  in_working_range t
  /\ datasheet_range (fst (session calls (self0, b1)))
  /\ sound_speed (fst (session calls (self0, b1))) = _get_sound_speed t.
Proof.
  intros H.
  destruct (Rlt_dec t (-15)) as [Hlo | Hlo];
    [rewrite init_out in H by lra; discriminate |].
  destruct (Rlt_dec 70 t) as [Hhi | Hhi];
    [rewrite init_out in H by lra; discriminate |].
  assert (Hin : in_working_range t) by (unfold in_working_range; lra).
  rewrite (init_in _ _ _ _ _ Hin) in H. injection H as <- <-.
  destruct (session_frame calls
    ({| max_working_temp := 70; min_working_temp := -15;
        air_temperature := t; sound_speed := _get_sound_speed t;
        echo_timeout_us := timeout;
        trigger := {| machine.id := trigger_pin; machine.mode := OUT |};
        echo := {| machine.id := echo_pin; machine.mode := IN |} |},
     {| events := events b0 ++ [EvPin trigger_pin OUT; EvValue trigger_pin 0;
                                EvPin echo_pin IN];
        echo_tape := echo_tape b0 |}))
    as (H1 & H2 & H3 & _).
  unfold datasheet_range. rewrite H1, H2, H3. cbn. auto.
Qed.

(** ** Temperature and speed of sound *)

(** Construction leaves the speed of sound that belongs to the stored
    temperature. *)
Lemma init_sound_speed_consistent (trigger_pin echo_pin timeout : Z) (t : R)
    (b b' : board) (self : HCSR04) :
  __init__ trigger_pin echo_pin timeout t b = (Ok self, b') ->
  air_temperature self = t
  /\ sound_speed self = _get_sound_speed (air_temperature self).
Proof.
  intros H.
  destruct (session_after_init _ _ _ _ _ _ _ [] H) as (Hin & _ & _).
  rewrite (init_in _ _ _ _ _ Hin) in H. injection H as <- _. cbn. auto.
Qed.

Lemma bench_sensor_constructed (b : board) :
  fst (__init__ 5 18 default_echo_timeout_us default_air_temp b) = Ok bench_sensor.
Proof.
  rewrite init_in; [reflexivity |].
  unfold in_working_range, default_air_temp. lra.
Qed.

(** C1, evaluated on the code where it fails.  The claim: a successful
    update sets [air_temperature] to t and recomputes [sound_speed], so that
    afterwards [sound_speed] is 20.05 * sqrt(t + 273.15) / 1000.  On the
    sensor built with the default 20 degrees, [update_air_temp(30)] succeeds
    and stores 30, but [sound_speed] is still the value computed for 20
    degrees, which is not the value for 30 degrees. *)
Theorem update_air_temp_stale_sound_speed :
  forall b : board,
    fst (__init__ 5 18 default_echo_timeout_us 20 b) = Ok bench_sensor
    /\ fst (update_air_temp 30 bench_sensor) = Ok tt
    /\ air_temperature (snd (update_air_temp 30 bench_sensor)) = 30
    /\ sound_speed (snd (update_air_temp 30 bench_sensor))
       = 20.05 * sqrt (20 + 273.15) / 1000
    /\ sound_speed (snd (update_air_temp 30 bench_sensor))
       <> 20.05 * sqrt (30 + 273.15) / 1000.
Proof.
  intros b. split; [apply bench_sensor_constructed |].
  rewrite update_air_temp_in by (cbn; lra). cbn.
  split; [reflexivity |]. split; [reflexivity |]. split; [reflexivity |].
  assert (H : _get_sound_speed 20 < _get_sound_speed 30)
    by (apply get_sound_speed_lt; lra).
  unfold _get_sound_speed, default_air_temp in *. lra.
Qed.

(** The same on every sensor that is consistent before the call: an
    accepted update to another temperature leaves a speed of sound that is
    not the one of the stored temperature. *)
Lemma update_air_temp_breaks_consistency (self : HCSR04) (t : R) :
  datasheet_range self ->
  in_working_range (air_temperature self) ->
  sound_speed self = _get_sound_speed (air_temperature self) ->
  in_working_range t ->
  t <> air_temperature self ->
  fst (update_air_temp t self) = Ok tt
  /\ air_temperature (snd (update_air_temp t self)) = t
  /\ sound_speed (snd (update_air_temp t self))
     <> _get_sound_speed (air_temperature (snd (update_air_temp t self))).
Proof.
  intros [Hmin Hmax] Hcur Hss Ht Hne. unfold in_working_range in *.
  rewrite update_air_temp_in by (rewrite Hmin, Hmax; exact Ht).
  cbn. split; [reflexivity |]. split; [reflexivity |].
  rewrite Hss.
  destruct (Rtotal_order t (air_temperature self)) as [Hlt | [Heq | Hgt]].
  - assert (_get_sound_speed t < _get_sound_speed (air_temperature self))
      by (apply get_sound_speed_lt; lra).
    lra.
  - contradiction.
  - assert (_get_sound_speed (air_temperature self) < _get_sound_speed t)
      by (apply get_sound_speed_lt; lra).
    lra.
Qed.

(** ** Failures of a measurement *)

(** C2, where it fails as stated.  [machine.time_pulse_us] reports a timeout
    by a negative return value (-2: the pulse did not begin in time; -1: it
    did not end in time), and the driver has one guard for every negative
    value; the class docstring calls its failure the converted timeout.  A
    reply of -2 and a reply of -1 end all three operations with the same
    [Exception('out of range')]: the failure value does not tell a timeout
    from a negative duration. *)
Lemma negative_timeout_reply_same_failure :
  failure (fst (distance_mm bench_sensor (fresh_board (Ok (-2)%Z))))
    = Some (Exception "out of range")
  /\ failure (fst (distance_mm bench_sensor (fresh_board (Ok (-1)%Z))))
    = Some (Exception "out of range")
  /\ failure (fst (distance_cm bench_sensor (fresh_board (Ok (-2)%Z))))
    = failure (fst (distance_cm bench_sensor (fresh_board (Ok (-1)%Z))))
  /\ failure (fst (distance_in bench_sensor (fresh_board (Ok (-2)%Z))))
    = failure (fst (distance_in bench_sensor (fresh_board (Ok (-1)%Z)))).
Proof.
  rewrite !distance_mm_eq, !distance_cm_eq, !distance_in_eq. cbn. auto.
Qed.

(** C2, amended.  A failure of the measurement is the failure of each
    distance operation, unchanged, and never a distance: what
    [time_pulse_us] raises is passed on as it is, and every negative return
    value, timeout sentinels included, fails with one and the same
    exception of the driver. *)
Theorem distance_failures_propagate :
  (forall (self : HCSR04) (b : board) (ex : exn),
     fst (_send_pulse_and_wait self b) = Raise ex ->
     fst (distance_mm self b) = Raise ex
     /\ fst (distance_cm self b) = Raise ex
     /\ fst (distance_in self b) = Raise ex)
  /\ (forall (self : HCSR04) (b : board) (ex : exn),
        echo_tape b 0%nat = Raise ex ->
        fst (_send_pulse_and_wait self b) = Raise ex)
  /\ (exists out_of_range : exn,
        forall (self : HCSR04) (b : board) (pulse_time : Z),
          echo_tape b 0%nat = Ok pulse_time -> (pulse_time < 0)%Z ->
          fst (_send_pulse_and_wait self b) = Raise out_of_range).
Proof.
  split; [| split].
  - intros self b ex H.
    rewrite send_pulse_and_wait_eq in H. cbn in H.
    rewrite distance_mm_eq, distance_cm_eq, distance_in_eq, H. cbn. auto.
  - intros self b ex H.
    rewrite send_pulse_and_wait_eq, H. reflexivity.
  - exists (Exception "out of range"). intros self b pulse_time H Hneg.
    rewrite send_pulse_and_wait_eq, H. cbn.
    apply Z.ltb_lt in Hneg. rewrite Hneg. reflexivity.
Qed.

(** An exception of the platform and the driver's own failure stay apart:
    with a platform that raises [OSError(110)] on a timeout, the caller can
    tell the timeout from a negative duration. *)
Example raised_timeout_is_distinct :
  failure (fst (distance_mm bench_sensor (fresh_board (Raise (OSError 110)))))
    = Some (OSError 110)
  /\ failure (fst (distance_mm bench_sensor (fresh_board (Raise (OSError 110)))))
     <> failure (fst (distance_mm bench_sensor (fresh_board (Ok (-1)%Z)))).
Proof.
  rewrite !distance_mm_eq. cbn. split; [reflexivity | discriminate].
Qed.

(** ** The range check *)

(** C4.  An update with a temperature below -15 or above 70 fails and
    leaves the sensor as it was, [air_temperature] and [sound_speed]
    included. *)
Theorem rejected_update_changes_nothing (self : HCSR04) (t : R) :
  datasheet_range self ->
  t < -15 \/ t > 70 ->
  fst (update_air_temp t self) = Raise (Exception "temperature out of range")
  /\ air_temperature (snd (update_air_temp t self)) = air_temperature self
  /\ sound_speed (snd (update_air_temp t self)) = sound_speed self
  /\ snd (update_air_temp t self) = self.
Proof.
  intros [Hmin Hmax] Hout.
  rewrite update_air_temp_out by (rewrite Hmin, Hmax; unfold Rgt in Hout; lra).
  cbn. auto.
Qed.

Lemma rejected_update_changes_nothing_at_71 :
  (71 < -15 \/ 71 > 70)
  /\ fst (update_air_temp 71 bench_sensor)
     = Raise (Exception "temperature out of range")
  /\ snd (update_air_temp 71 bench_sensor) = bench_sensor.
Proof.
  assert (H : datasheet_range bench_sensor) by (split; reflexivity).
  assert (Hout : 71 < -15 \/ 71 > 70) by (right; lra).
  split; [exact Hout |].
  destruct (rejected_update_changes_nothing bench_sensor 71 H Hout)
    as (Hfail & _ & _ & Hsame).
  split; [exact Hfail | exact Hsame].
Defined.

(** ** Unit conversions *)

(** At 20 degrees the speed of sound is between 0.3432 and 0.3434 mm/us. *)
Lemma sound_speed_20 :
  0.3432 < _get_sound_speed 20 < 0.3434.
Proof.
  unfold _get_sound_speed.
  assert (H1 : 17.12 < sqrt (20 + 273.15)).
  { rewrite <- (sqrt_square 17.12) by lra. apply sqrt_lt_1; lra. }
  assert (H2 : sqrt (20 + 273.15) < 17.125).
  { rewrite <- (sqrt_square 17.125) by lra. apply sqrt_lt_1; lra. }
  lra.
Qed.

(** A pulse of 1000 us at 20 degrees is 171 mm. *)
Example distance_mm_1000us_at_20 :
  fst (distance_mm bench_sensor (fresh_board (Ok 1000%Z))) = Ok 171%Z.
Proof.
  rewrite distance_mm_eq. cbn. rewrite py_int_floordiv. f_equal.
  apply Zfloor_eq. pose proof sound_speed_20 as H.
  unfold default_air_temp. lra.
Qed.

(** C6.  For a measured pulse width, [distance_cm] returns
    (sound_speed * pulse_us) / 20 and [distance_in] returns
    (sound_speed * pulse_us) / 50.8; neither goes through a truncated
    intermediate value. *)
Theorem distance_cm_in_direct (self : HCSR04) (b b' : board) (pulse_us : Z) :
  _send_pulse_and_wait self b = (Ok pulse_us, b') ->
  distance_cm self b = (Ok ((sound_speed self * IZR pulse_us) / 20), b')
  /\ distance_in self b = (Ok ((sound_speed self * IZR pulse_us) / 50.8), b').
Proof.
  intros H. apply measured_pulse_checked in H as [Hp ->].
  rewrite distance_cm_eq, distance_in_eq, Hp. auto.
Qed.

Lemma distance_cm_in_direct_1000us :
  _send_pulse_and_wait bench_sensor (fresh_board (Ok 1000%Z))
    = (Ok 1000%Z, after_pulse bench_sensor (fresh_board (Ok 1000%Z)))
  /\ distance_cm bench_sensor (fresh_board (Ok 1000%Z))
    = (Ok ((sound_speed bench_sensor * IZR 1000) / 20),
       after_pulse bench_sensor (fresh_board (Ok 1000%Z)))
  /\ distance_in bench_sensor (fresh_board (Ok 1000%Z))
    = (Ok ((sound_speed bench_sensor * IZR 1000) / 50.8),
       after_pulse bench_sensor (fresh_board (Ok 1000%Z))).
Proof.
  assert (H : _send_pulse_and_wait bench_sensor (fresh_board (Ok 1000%Z))
              = (Ok 1000%Z, after_pulse bench_sensor (fresh_board (Ok 1000%Z))))
    by reflexivity.
  split; [exact H |].
  exact (distance_cm_in_direct bench_sensor _ _ 1000%Z H).
Defined.

(** The centimetres are not the truncated millimetres divided by 10: for
    1000 us at 20 degrees, [distance_mm] gives 171 and [distance_cm] gives
    more than 17.1. *)
Example distance_cm_not_truncated :
  exists cm, fst (distance_cm bench_sensor (fresh_board (Ok 1000%Z))) = Ok cm
             /\ 17.16 < cm < 17.17.
Proof.
  rewrite distance_cm_eq. cbn. eexists. split; [reflexivity |].
  pose proof sound_speed_20 as H. unfold default_air_temp. lra.
Qed.

(** ** The trigger pulse *)

(** C7.  One measurement cycle makes exactly these platform calls, in this
    order, after what was logged before: trigger low, sleep 5 us, trigger
    high, sleep 10 us, trigger low, and then the pulse measurement on the
    echo pin for level 1 with [echo_timeout_us]; it consumes one reply of
    the echo line.  Every distance operation is one such cycle. *)
Theorem measurement_cycle_sequence (self : HCSR04) (b : board) :
  events (snd (_send_pulse_and_wait self b)) =
    events b ++
    [ EvValue (machine.id (trigger self)) 0;
      EvSleepUs 5;
      EvValue (machine.id (trigger self)) 1;
      EvSleepUs 10;
      EvValue (machine.id (trigger self)) 0;
      EvTimePulseUs (machine.id (echo self)) 1 (echo_timeout_us self) ]
  /\ fst (_send_pulse_and_wait self b) = checked_pulse (echo_tape b 0%nat)
  /\ snd (distance_mm self b) = snd (_send_pulse_and_wait self b)
  /\ snd (distance_cm self b) = snd (_send_pulse_and_wait self b)
  /\ snd (distance_in self b) = snd (_send_pulse_and_wait self b).
Proof.
  rewrite distance_mm_eq, distance_cm_eq, distance_in_eq, send_pulse_and_wait_eq.
  cbn. auto.
Qed.

(** C8.  The level last written to the trigger pin is 0 after construction
    and after every call of every session that follows it; and whatever the
    sensor, the board and the reply of the echo line, a measurement cycle
    writes 0 to the trigger as its last call before the wait on the echo,
    and every distance operation leaves the trigger written low. *)
Theorem trigger_low_between_measurements
    (trigger_pin echo_pin timeout : Z) (t : R) (b0 b1 : board)
    (self0 : HCSR04) (calls : list call) :
  __init__ trigger_pin echo_pin timeout t b0 = (Ok self0, b1) ->
  written_level (machine.id (trigger self0)) (events b1) = Some 0%Z
  /\ written_level (machine.id (trigger (fst (session calls (self0, b1)))))
       (events (snd (session calls (self0, b1)))) = Some 0%Z
  /\ (forall (self : HCSR04) (b : board),
        (exists earlier,
           events (snd (_send_pulse_and_wait self b)) =
             earlier ++
             [ EvValue (machine.id (trigger self)) 0;
               EvTimePulseUs (machine.id (echo self)) 1 (echo_timeout_us self) ])
        /\ written_level (machine.id (trigger self))
             (events (snd (_send_pulse_and_wait self b))) = Some 0%Z
        /\ written_level (machine.id (trigger self))
             (events (snd (distance_mm self b))) = Some 0%Z
        /\ written_level (machine.id (trigger self))
             (events (snd (distance_cm self b))) = Some 0%Z
        /\ written_level (machine.id (trigger self))
             (events (snd (distance_in self b))) = Some 0%Z).
Proof.
  intros H.
  assert (Hinit : written_level (machine.id (trigger self0)) (events b1)
                  = Some 0%Z).
  { destruct (session_after_init _ _ _ _ _ _ _ [] H) as (Hin & _ & _).
    rewrite (init_in _ _ _ _ _ Hin) in H. injection H as <- <-. cbn.
    apply written_level_app_init. }
  split; [exact Hinit |]. split.
  - apply session_trigger_low. exact Hinit.
  - intros self b.
    rewrite distance_mm_eq, distance_cm_eq, distance_in_eq,
      send_pulse_and_wait_eq. cbn.
    split; [| repeat split; apply written_level_app_pulse].
    exists (events b ++ [ EvValue (machine.id (trigger self)) 0; EvSleepUs 5;
                          EvValue (machine.id (trigger self)) 1; EvSleepUs 10 ]).
    rewrite <- app_assoc. reflexivity.
Qed.

Lemma trigger_low_between_measurements_bench :
  __init__ 5 18 default_echo_timeout_us default_air_temp (fresh_board (Ok 1000%Z))
    = (Ok bench_sensor,
       {| events := [EvPin 5 OUT; EvValue 5 0; EvPin 18 IN];
          echo_tape := fun _ => Ok 1000%Z |})
  /\ written_level 5 [EvPin 5 OUT; EvValue 5 0; EvPin 18 IN] = Some 0%Z
  /\ written_level
       (machine.id (trigger (fst (session [DistanceMm; UpdateAirTemp 30; DistanceCm]
          (bench_sensor,
           {| events := [EvPin 5 OUT; EvValue 5 0; EvPin 18 IN];
              echo_tape := fun _ => Ok 1000%Z |})))))
       (events (snd (session [DistanceMm; UpdateAirTemp 30; DistanceCm]
          (bench_sensor,
           {| events := [EvPin 5 OUT; EvValue 5 0; EvPin 18 IN];
              echo_tape := fun _ => Ok 1000%Z |}))))
     = Some 0%Z.
Proof.
  assert (H : __init__ 5 18 default_echo_timeout_us default_air_temp
                (fresh_board (Ok 1000%Z))
              = (Ok bench_sensor,
                 {| events := [EvPin 5 OUT; EvValue 5 0; EvPin 18 IN];
                    echo_tape := fun _ => Ok 1000%Z |})).
  { rewrite init_in; [reflexivity |].
    unfold in_working_range, default_air_temp. lra. }
  split; [exact H |].
  destruct (trigger_low_between_measurements _ _ _ _ _ _ _
              [DistanceMm; UpdateAirTemp 30; DistanceCm] H) as (H0 & H1 & _).
  split; [exact H0 | exact H1].
Defined.

(** ** Repetition *)

(** C9.  Two consecutive [distance_cm] calls that both measure the pulse
    width [pulse_us] succeed with the same value; and [update_air_temp] with
    the current temperature leaves [sound_speed], and the whole sensor, as
    they were. *)
Theorem repeated_cm_and_same_temperature
    (self : HCSR04) (b b1 b2 : board) (pulse_us : Z) :
  _send_pulse_and_wait self b = (Ok pulse_us, b1) ->
  _send_pulse_and_wait self b1 = (Ok pulse_us, b2) ->
  distance_cm self b = (Ok ((sound_speed self * IZR pulse_us) / 20), b1)
  /\ distance_cm self b1 = (Ok ((sound_speed self * IZR pulse_us) / 20), b2)
  /\ fst (distance_cm self b) = fst (distance_cm self b1)
  /\ sound_speed (snd (update_air_temp (air_temperature self) self))
     = sound_speed self
  /\ snd (update_air_temp (air_temperature self) self) = self.
Proof.
  intros H1 H2.
  apply measured_pulse_checked in H1 as [E1 ->].
  apply measured_pulse_checked in H2 as [E2 ->].
  rewrite (distance_cm_eq self b), (distance_cm_eq self (after_pulse self b)).
  rewrite E1, E2. cbn. repeat split.
  - apply update_air_temp_frame.
  - unfold update_air_temp, try_except, bind, get.
    destruct (Rgtb (min_working_temp self) (air_temperature self)
              || Rltb (max_working_temp self) (air_temperature self)); cbn.
    + reflexivity.
    + destruct self; reflexivity.
Qed.

Lemma repeated_cm_and_same_temperature_1000us :
  _send_pulse_and_wait bench_sensor (fresh_board (Ok 1000%Z))
    = (Ok 1000%Z, after_pulse bench_sensor (fresh_board (Ok 1000%Z)))
  /\ _send_pulse_and_wait bench_sensor
       (after_pulse bench_sensor (fresh_board (Ok 1000%Z)))
    = (Ok 1000%Z,
       after_pulse bench_sensor
         (after_pulse bench_sensor (fresh_board (Ok 1000%Z))))
  /\ fst (distance_cm bench_sensor (fresh_board (Ok 1000%Z)))
     = fst (distance_cm bench_sensor
              (after_pulse bench_sensor (fresh_board (Ok 1000%Z))))
  /\ snd (update_air_temp (air_temperature bench_sensor) bench_sensor)
     = bench_sensor.
Proof.
  assert (H1 : _send_pulse_and_wait bench_sensor (fresh_board (Ok 1000%Z))
               = (Ok 1000%Z, after_pulse bench_sensor (fresh_board (Ok 1000%Z))))
    by reflexivity.
  assert (H2 : _send_pulse_and_wait bench_sensor
                 (after_pulse bench_sensor (fresh_board (Ok 1000%Z)))
               = (Ok 1000%Z,
                  after_pulse bench_sensor
                    (after_pulse bench_sensor (fresh_board (Ok 1000%Z)))))
    by reflexivity.
  split; [exact H1 |]. split; [exact H2 |].
  destruct (repeated_cm_and_same_temperature _ _ _ _ _ H1 H2)
    as (_ & _ & Hsame & _ & Hself).
  split; [exact Hsame | exact Hself].
Defined.

(** ** Signs *)

(** C10.  For a temperature in [-15, 70] the speed of sound computed from
    it is strictly positive; a sensor that holds it returns, for every
    measured pulse width (which is never negative), a nonnegative integer
    from [distance_mm] and nonnegative values from [distance_cm] and
    [distance_in]. *)
Theorem distances_nonnegative
    (t : R) (self : HCSR04) (b b' : board) (pulse_us : Z) :
  -15 <= t <= 70 ->
  sound_speed self = _get_sound_speed t ->
  _send_pulse_and_wait self b = (Ok pulse_us, b') ->
  0 < _get_sound_speed t
  /\ (0 <= pulse_us)%Z
  /\ (exists mm, distance_mm self b = (Ok mm, b') /\ (0 <= mm)%Z)
  /\ (exists cm, distance_cm self b = (Ok cm, b') /\ 0 <= cm)
  /\ (exists inches, distance_in self b = (Ok inches, b') /\ 0 <= inches).
Proof.
  intros Ht Hss H.
  assert (Hpos : 0 < _get_sound_speed t) by (apply get_sound_speed_pos; lra).
  destruct (measured_pulse_nonneg _ _ _ _ H) as (_ & Hp & _).
  assert (Hprod : 0 <= sound_speed self * IZR pulse_us).
  { rewrite Hss. apply Rmult_le_pos; [lra |]. apply IZR_le in Hp. exact Hp. }
  apply measured_pulse_checked in H as [Hchk ->].
  rewrite distance_mm_eq, distance_cm_eq, distance_in_eq, Hchk.
  split; [exact Hpos |]. split; [exact Hp |]. split; [| split].
  - eexists. split; [reflexivity |].
    rewrite py_int_floordiv. apply Zfloor_lub. lra.
  - eexists. split; [reflexivity |]. lra.
  - eexists. split; [reflexivity |]. lra.
Qed.

Lemma distances_nonnegative_1000us :
  -15 <= 20 <= 70
  /\ sound_speed bench_sensor = _get_sound_speed 20
  /\ _send_pulse_and_wait bench_sensor (fresh_board (Ok 1000%Z))
     = (Ok 1000%Z, after_pulse bench_sensor (fresh_board (Ok 1000%Z)))
  /\ 0 < _get_sound_speed 20
  /\ (exists mm, distance_mm bench_sensor (fresh_board (Ok 1000%Z))
                 = (Ok mm, after_pulse bench_sensor (fresh_board (Ok 1000%Z)))
                 /\ (0 <= mm)%Z).
Proof.
  assert (Ht : -15 <= 20 <= 70) by lra.
  assert (Hss : sound_speed bench_sensor = _get_sound_speed 20) by reflexivity.
  assert (H : _send_pulse_and_wait bench_sensor (fresh_board (Ok 1000%Z))
              = (Ok 1000%Z, after_pulse bench_sensor (fresh_board (Ok 1000%Z))))
    by reflexivity.
  split; [exact Ht |]. split; [exact Hss |]. split; [exact H |].
  destruct (distances_nonnegative 20 bench_sensor _ _ 1000%Z Ht Hss H)
    as (Hpos & _ & Hmm & _).
  split; [exact Hpos | exact Hmm].
Defined.

(** The sensors that a session reaches from a successful construction meet
    the premises of the sign property: their speed of sound is the one of
    the construction temperature, which is in the working range. *)
Lemma reachable_sound_speed_positive (trigger_pin echo_pin timeout : Z) (t : R)
    (b0 b1 : board) (self0 : HCSR04) (calls : list call) :
  __init__ trigger_pin echo_pin timeout t b0 = (Ok self0, b1) ->
  0 < sound_speed (fst (session calls (self0, b1))).
Proof.
  intros H. destruct (session_after_init _ _ _ _ _ _ _ calls H) as (Hin & _ & ->).
  apply get_sound_speed_pos. unfold in_working_range in Hin. lra.
Qed.

(** * Further properties of the driver *)

(** ** Shared facts *)

(** [update_air_temp] either stores the temperature or leaves the sensor. *)
Lemma update_air_temp_cases (self : HCSR04) (t : R) :
  (min_working_temp self <= t <= max_working_temp self
   /\ update_air_temp t self = (Ok tt, set_air_temperature self t))
  \/ ((t < min_working_temp self \/ max_working_temp self < t)
      /\ update_air_temp t self
         = (Raise (Exception "temperature out of range"), self)).
Proof.
  destruct (Rlt_dec t (min_working_temp self)) as [Hlo | Hlo].
  - right. split; [lra | apply update_air_temp_out; lra].
  - destruct (Rlt_dec (max_working_temp self) t) as [Hhi | Hhi].
    + right. split; [lra | apply update_air_temp_out; lra].
    + left. split; [lra | apply update_air_temp_in; lra].
Qed.

Lemma pulse_events_update (self : HCSR04) (t : R) :
  pulse_events (snd (update_air_temp t self)) = pulse_events self.
Proof.
  destruct (update_air_temp_cases self t) as [[_ ->] | [_ ->]]; reflexivity.
Qed.

Lemma session_events_same_pins (self self' : HCSR04) (calls : list call) :
  pulse_events self' = pulse_events self ->
  session_events self' calls = session_events self calls.
Proof.
  intros H. unfold session_events. rewrite H. reflexivity.
Qed.

Lemma init_success (trigger_pin echo_pin timeout : Z) (t : R)
    (b b' : board) (self : HCSR04) :
  __init__ trigger_pin echo_pin timeout t b = (Ok self, b') ->
  in_working_range t
  /\ self = {| max_working_temp := 70;
               min_working_temp := -15;
               air_temperature := t;
               sound_speed := _get_sound_speed t;
               echo_timeout_us := timeout;
               trigger := {| machine.id := trigger_pin; machine.mode := OUT |};
               echo := {| machine.id := echo_pin; machine.mode := IN |} |}
  /\ b' = {| events := events b ++ [EvPin trigger_pin OUT; EvValue trigger_pin 0;
                                    EvPin echo_pin IN];
             echo_tape := echo_tape b |}.
Proof.
  intros H.
  destruct (session_after_init _ _ _ _ _ _ _ [] H) as (Hin & _ & _).
  rewrite (init_in _ _ _ _ _ Hin) in H. injection H as <- <-. auto.
Qed.

(** The square root of the absolute temperature over the working range. *)
Lemma sqrt_kelvin_bounds (t : R) :
  -15 <= t <= 70 -> 16.06 < sqrt (t + 273.15) < 18.53.
Proof.
  intros H. split.
  - rewrite <- (sqrt_square 16.06) by lra. apply sqrt_lt_1; lra.
  - rewrite <- (sqrt_square 18.53) by lra. apply sqrt_lt_1; lra.
Qed.

(** ** Construction *)

(** X1.  A successful construction makes exactly three platform calls, in
    this order: the trigger pin as output, the write of 0 to it, the echo
    pin as input.  It measures nothing: the replies of the echo line are all
    still to come.  The sensor holds the given temperature, the given
    timeout and the two pins. *)
Theorem construction_effects (trigger_pin echo_pin timeout : Z) (t : R)
    (b b' : board) (self : HCSR04) :
  __init__ trigger_pin echo_pin timeout t b = (Ok self, b') ->
  events b' = events b ++ [EvPin trigger_pin OUT; EvValue trigger_pin 0;
                           EvPin echo_pin IN]
  /\ (forall n, echo_tape b' n = echo_tape b n)
  /\ air_temperature self = t
  /\ echo_timeout_us self = timeout
  /\ machine.id (trigger self) = trigger_pin
  /\ machine.mode (trigger self) = OUT
  /\ machine.id (echo self) = echo_pin
  /\ machine.mode (echo self) = IN.
Proof.
  intros H. apply init_success in H as (_ & -> & ->). cbn.
  repeat split; reflexivity.
Qed.

Lemma construction_effects_bench :
  __init__ 5 18 default_echo_timeout_us default_air_temp (fresh_board (Ok 1000%Z))
    = (Ok bench_sensor,
       {| events := [EvPin 5 OUT; EvValue 5 0; EvPin 18 IN];
          echo_tape := fun _ => Ok 1000%Z |})
  /\ echo_timeout_us bench_sensor = default_echo_timeout_us
  /\ machine.id (trigger bench_sensor) = 5%Z.
Proof.
  assert (H : __init__ 5 18 default_echo_timeout_us default_air_temp
                (fresh_board (Ok 1000%Z))
              = (Ok bench_sensor,
                 {| events := [EvPin 5 OUT; EvValue 5 0; EvPin 18 IN];
                    echo_tape := fun _ => Ok 1000%Z |})).
  { rewrite init_in; [reflexivity |].
    unfold in_working_range, default_air_temp. lra. }
  split; [exact H |].
  destruct (construction_effects _ _ _ _ _ _ _ H)
    as (_ & _ & _ & Htimeout & Htrigger & _).
  split; [exact Htimeout | exact Htrigger].
Defined.

(** ** The stored temperature *)

(** X3.  No call of [update_air_temp], accepted or rejected, changes what
    a distance operation does afterwards: the same platform calls and the
    same result as on the sensor before the update. *)
Theorem update_air_temp_never_changes_distance
    (self : HCSR04) (t : R) (b : board) :
  distance_mm (snd (update_air_temp t self)) b = distance_mm self b
  /\ distance_cm (snd (update_air_temp t self)) b = distance_cm self b
  /\ distance_in (snd (update_air_temp t self)) b = distance_in self b.
Proof.
  destruct (update_air_temp_cases self t) as [[_ ->] | [_ ->]]; cbn;
    rewrite ?distance_mm_eq, ?distance_cm_eq, ?distance_in_eq; auto.
Qed.

(** X4.  Of two updates in a row, the second decides when it is accepted:
    the sensor is the one that the second update alone would leave,
    whether the first was accepted or rejected. *)
Theorem update_air_temp_last_wins (self : HCSR04) (t1 t2 : R) :
  is_ok (fst (update_air_temp t2 self)) = true ->
  update_air_temp t2 (snd (update_air_temp t1 self))
  = (Ok tt, snd (update_air_temp t2 self))
  /\ air_temperature (snd (update_air_temp t2 (snd (update_air_temp t1 self))))
     = t2.
Proof.
  intros H2.
  destruct (update_air_temp_cases self t2) as [[Hin2 E2] | [_ E2]];
    [| rewrite E2 in H2; discriminate].
  rewrite E2. cbn.
  destruct (update_air_temp_cases self t1) as [[_ ->] | [_ ->]]; cbn.
  - rewrite update_air_temp_in by (cbn; exact Hin2). cbn. auto.
  - rewrite E2. cbn. auto.
Qed.

Lemma update_air_temp_last_wins_bench :
  is_ok (fst (update_air_temp 25 bench_sensor)) = true
  /\ air_temperature
       (snd (update_air_temp 25 (snd (update_air_temp 30 bench_sensor)))) = 25.
Proof.
  assert (H : is_ok (fst (update_air_temp 25 bench_sensor)) = true).
  { rewrite update_air_temp_in by (cbn; lra). reflexivity. }
  split; [exact H |].
  exact (proj2 (update_air_temp_last_wins bench_sensor 30 25 H)).
Defined.

(** ** The three units *)

(** X6.  With a speed of sound that is not negative, a longer measured
    pulse never gives a smaller distance, in any of the three units. *)
Theorem distance_monotone_in_pulse
    (self : HCSR04) (b1 b1' b2 b2' : board) (p1 p2 : Z) :
  0 <= sound_speed self ->
  _send_pulse_and_wait self b1 = (Ok p1, b1') ->
  _send_pulse_and_wait self b2 = (Ok p2, b2') ->
  (p1 <= p2)%Z ->
  exists (mm1 mm2 : Z) (cm1 cm2 in1 in2 : R),
    fst (distance_mm self b1) = Ok mm1 /\ fst (distance_mm self b2) = Ok mm2
    /\ fst (distance_cm self b1) = Ok cm1 /\ fst (distance_cm self b2) = Ok cm2
    /\ fst (distance_in self b1) = Ok in1 /\ fst (distance_in self b2) = Ok in2
    /\ (mm1 <= mm2)%Z /\ cm1 <= cm2 /\ in1 <= in2.
Proof.
  intros Hss H1 H2 Hle.
  apply measured_pulse_checked in H1 as [E1 _].
  apply measured_pulse_checked in H2 as [E2 _].
  rewrite !distance_mm_eq, !distance_cm_eq, !distance_in_eq, E1, E2. cbn.
  assert (Hprod : sound_speed self * IZR p1 <= sound_speed self * IZR p2).
  { apply Rmult_le_compat_l; [exact Hss |]. apply IZR_le. exact Hle. }
  do 6 eexists. repeat (split; [reflexivity |]).
  rewrite !py_int_floordiv. split; [| split].
  - apply Zfloor_le. lra.
  - lra.
  - lra.
Qed.

Lemma distance_monotone_in_pulse_bench :
  0 <= sound_speed bench_sensor
  /\ (500 <= 1000)%Z
  /\ exists (mm1 mm2 : Z),
       fst (distance_mm bench_sensor (fresh_board (Ok 500%Z))) = Ok mm1
       /\ fst (distance_mm bench_sensor (fresh_board (Ok 1000%Z))) = Ok mm2
       /\ (mm1 <= mm2)%Z.
Proof.
  assert (Hss : 0 <= sound_speed bench_sensor).
  { apply Rlt_le. apply get_sound_speed_pos. unfold default_air_temp. lra. }
  assert (H1 : _send_pulse_and_wait bench_sensor (fresh_board (Ok 500%Z))
               = (Ok 500%Z, after_pulse bench_sensor (fresh_board (Ok 500%Z))))
    by reflexivity.
  assert (H2 : _send_pulse_and_wait bench_sensor (fresh_board (Ok 1000%Z))
               = (Ok 1000%Z, after_pulse bench_sensor (fresh_board (Ok 1000%Z))))
    by reflexivity.
  assert (Hle : (500 <= 1000)%Z) by lia.
  split; [exact Hss |]. split; [exact Hle |].
  destruct (distance_monotone_in_pulse bench_sensor _ _ _ _ _ _ Hss H1 H2 Hle)
    as (mm1 & mm2 & _ & _ & _ & _ & E1 & E2 & _ & _ & _ & _ & Hmm & _).
  exists mm1, mm2. auto.
Defined.

(** ** The speed of sound over the working range *)

(** X7.  Over the working range the computed speed of sound grows with the
    temperature and stays between 0.322 and 0.3716 mm/us. *)
Theorem sound_speed_working_range (t u : R) :
  -15 <= t -> t <= u -> u <= 70 ->
  0.322 < _get_sound_speed t
  /\ _get_sound_speed t <= _get_sound_speed u
  /\ _get_sound_speed u < 0.3716.
Proof.
  intros Ht Htu Hu.
  pose proof (sqrt_kelvin_bounds t) as Bt.
  pose proof (sqrt_kelvin_bounds u) as Bu.
  assert (Hs : sqrt (t + 273.15) <= sqrt (u + 273.15))
    by (apply sqrt_le_1; lra).
  unfold _get_sound_speed. lra.
Qed.

Lemma sound_speed_working_range_ends :
  (-15 <= -15) /\ (-15 <= 70) /\ (70 <= 70)
  /\ 0.322 < _get_sound_speed (-15)
  /\ _get_sound_speed (-15) <= _get_sound_speed 70
  /\ _get_sound_speed 70 < 0.3716.
Proof.
  assert (H1 : -15 <= -15) by lra.
  assert (H2 : -15 <= 70) by lra.
  assert (H3 : 70 <= 70) by lra.
  split; [exact H1 |]. split; [exact H2 |]. split; [exact H3 |].
  exact (sound_speed_working_range (-15) 70 H1 H2 H3).
Defined.

(** X8.  The default timeout covers the 400 cm range of the sensor at every
    working temperature: a measurement that [distance_cm] turns into at
    most 400 cm has a pulse width below [500*2*30] microseconds. *)
Theorem default_timeout_covers_range
    (t : R) (self : HCSR04) (b b' : board) (pulse_us : Z) (cm : R) :
  -15 <= t <= 70 ->
  sound_speed self = _get_sound_speed t ->
  _send_pulse_and_wait self b = (Ok pulse_us, b') ->
  distance_cm self b = (Ok cm, b') ->
  cm <= 400 ->
  (pulse_us < default_echo_timeout_us)%Z.
Proof.
  intros Ht Hss H Hcm Hle.
  destruct (measured_pulse_nonneg _ _ _ _ H) as (_ & Hp & _).
  apply measured_pulse_checked in H as [Hchk ->].
  rewrite distance_cm_eq, Hchk in Hcm. injection Hcm as <-.
  rewrite Hss in Hle.
  assert (Hspeed : 0.322 < _get_sound_speed t).
  { unfold _get_sound_speed. pose proof (sqrt_kelvin_bounds t Ht). lra. }
  apply IZR_le in Hp.
  assert (Hlow : 0.322 * IZR pulse_us <= _get_sound_speed t * IZR pulse_us)
    by (apply Rmult_le_compat_r; lra).
  apply lt_IZR. unfold default_echo_timeout_us.
  rewrite !mult_IZR. lra.
Qed.

Lemma default_timeout_covers_range_1000us :
  -15 <= 20 <= 70
  /\ (exists cm, distance_cm bench_sensor (fresh_board (Ok 1000%Z))
                 = (Ok cm, after_pulse bench_sensor (fresh_board (Ok 1000%Z)))
                 /\ cm <= 400)
  /\ (1000 < default_echo_timeout_us)%Z.
Proof.
  assert (Ht : -15 <= 20 <= 70) by lra.
  assert (Hss : sound_speed bench_sensor = _get_sound_speed 20) by reflexivity.
  assert (H : _send_pulse_and_wait bench_sensor (fresh_board (Ok 1000%Z))
              = (Ok 1000%Z, after_pulse bench_sensor (fresh_board (Ok 1000%Z))))
    by reflexivity.
  assert (Hcm : distance_cm bench_sensor (fresh_board (Ok 1000%Z))
                = (Ok (sound_speed bench_sensor * IZR 1000 / 20),
                   after_pulse bench_sensor (fresh_board (Ok 1000%Z)))).
  { rewrite distance_cm_eq. reflexivity. }
  assert (Hle : sound_speed bench_sensor * IZR 1000 / 20 <= 400).
  { pose proof sound_speed_20 as B. cbn. unfold default_air_temp. lra. }
  split; [exact Ht |].
  split; [eexists; split; [exact Hcm | exact Hle] |].
  exact (default_timeout_covers_range 20 bench_sensor _ _ 1000%Z _
           Ht Hss H Hcm Hle).
Defined.

(** ** Edges of a measurement *)

(** X9.  A reply of 0 passes the guard, which rejects only what is below
    0: on a sensor whose speed of sound was computed from a temperature in
    the working range, the measurement succeeds and the distance is 0 in
    every unit. *)
Theorem zero_pulse_is_zero_distance (t : R) (self : HCSR04) (b : board) :
  -15 <= t <= 70 ->
  sound_speed self = _get_sound_speed t ->
  echo_tape b 0%nat = Ok 0%Z ->
  fst (_send_pulse_and_wait self b) = Ok 0%Z
  /\ fst (distance_mm self b) = Ok 0%Z
  /\ fst (distance_cm self b) = Ok 0
  /\ fst (distance_in self b) = Ok 0.
Proof.
  intros _ _ H.
  rewrite send_pulse_and_wait_eq, distance_mm_eq, distance_cm_eq,
    distance_in_eq, H. cbn.
  split; [reflexivity |]. split; [| split].
  - f_equal. rewrite py_int_floordiv.
    replace (sound_speed self * 0 / 2) with (IZR 0) by lra.
    apply ZfloorZ.
  - f_equal. lra.
  - f_equal. lra.
Qed.

Lemma zero_pulse_is_zero_distance_bench :
  -15 <= 20 <= 70
  /\ sound_speed bench_sensor = _get_sound_speed 20
  /\ echo_tape (fresh_board (Ok 0%Z)) 0%nat = Ok 0%Z
  /\ fst (distance_mm bench_sensor (fresh_board (Ok 0%Z))) = Ok 0%Z.
Proof.
  assert (Ht : -15 <= 20 <= 70) by lra.
  assert (Hss : sound_speed bench_sensor = _get_sound_speed 20) by reflexivity.
  assert (H : echo_tape (fresh_board (Ok 0%Z)) 0%nat = Ok 0%Z) by reflexivity.
  split; [exact Ht |]. split; [exact Hss |]. split; [exact H |].
  exact (proj1 (proj2 (zero_pulse_is_zero_distance 20 bench_sensor _ Ht Hss H))).
Defined.

(** X10.  A measurement starts afresh after a failed one: whatever the
    reply to a first distance operation, a raised exception and a negative
    value included, the next [distance_cm] succeeds on a reply that is not
    negative, with the value of that reply alone. *)
Theorem measurement_after_failure (self : HCSR04) (b : board) (pulse_us : Z) :
  echo_tape b 1%nat = Ok pulse_us ->
  (0 <= pulse_us)%Z ->
  fst (distance_cm self (snd (distance_mm self b)))
    = Ok (sound_speed self * IZR pulse_us / 20)
  /\ fst (distance_cm self (snd (distance_cm self b)))
    = Ok (sound_speed self * IZR pulse_us / 20)
  /\ fst (distance_cm self (snd (distance_in self b)))
    = Ok (sound_speed self * IZR pulse_us / 20).
Proof.
  intros H Hp.
  assert (E : fst (distance_cm self (after_pulse self b))
              = Ok (sound_speed self * IZR pulse_us / 20)).
  { rewrite distance_cm_eq. cbn. rewrite H. cbn.
    apply Z.ltb_ge in Hp. rewrite Hp. reflexivity. }
  rewrite (distance_mm_eq self b), (distance_cm_eq self b),
    (distance_in_eq self b). cbn. auto.
Qed.

Lemma measurement_after_failure_timeout :
  echo_tape (board_replying (Raise (OSError 110)) (Ok 1000%Z)) 1%nat = Ok 1000%Z
  /\ (0 <= 1000)%Z
  /\ failure (fst (distance_mm bench_sensor
                     (board_replying (Raise (OSError 110)) (Ok 1000%Z))))
     = Some (OSError 110)
  /\ fst (distance_cm bench_sensor
            (snd (distance_mm bench_sensor
                    (board_replying (Raise (OSError 110)) (Ok 1000%Z)))))
     = Ok (sound_speed bench_sensor * IZR 1000 / 20).
Proof.
  assert (H : echo_tape (board_replying (Raise (OSError 110)) (Ok 1000%Z)) 1%nat
              = Ok 1000%Z) by reflexivity.
  assert (Hp : (0 <= 1000)%Z) by lia.
  split; [exact H |]. split; [exact Hp |].
  split; [rewrite distance_mm_eq; reflexivity |].
  exact (proj1 (measurement_after_failure bench_sensor _ 1000%Z H Hp)).
Defined.

(** ** The platform calls of a session *)

(** The log and the echo line after a session. *)
Lemma session_board_eq (calls : list call) (self : HCSR04) (b : board) :
  events (snd (session calls (self, b))) = events b ++ session_events self calls
  /\ (forall n, echo_tape (snd (session calls (self, b))) n
                = echo_tape b (n + cycles calls)%nat).
Proof.
  revert self b. induction calls as [| c calls IH]; intros self b.
  - cbn. rewrite app_nil_r. split; [reflexivity |].
    intros n. rewrite Nat.add_0_r. reflexivity.
  - assert (Hcycle : forall b1, b1 = after_pulse self b ->
      events (snd (session calls (self, b1)))
        = events b ++ pulse_events self ++ session_events self calls
      /\ (forall n, echo_tape (snd (session calls (self, b1))) n
                    = echo_tape b (n + S (cycles calls))%nat)).
    { intros b1 ->. destruct (IH self (after_pulse self b)) as [He Ht].
      rewrite He. cbn [events after_pulse]. rewrite <- app_assoc.
      split; [reflexivity |]. intros n. rewrite Ht. cbn.
      f_equal. lia. }
    destruct c; cbn [session fold_left do_call].
    + destruct (IH (snd (update_air_temp temperature self)) b) as [He Ht].
      unfold session in *. rewrite He.
      rewrite (session_events_same_pins self _ calls
                 (pulse_events_update self temperature)).
      split; [reflexivity | exact Ht].
    + apply Hcycle. rewrite distance_mm_eq. reflexivity.
    + apply Hcycle. rewrite distance_cm_eq. reflexivity.
    + apply Hcycle. rewrite distance_in_eq. reflexivity.
Qed.

Lemma session_events_length (self : HCSR04) (calls : list call) :
  length (session_events self calls) = (6 * cycles calls)%nat.
Proof.
  unfold session_events, cycles.
  induction calls as [| c calls IH]; [reflexivity |].
  cbn [flat_map filter]. rewrite length_app, IH.
  destruct c; cbn; lia.
Qed.

(** X11.  Whatever the sensor and the replies, the calls of a session add
    to the log one measurement cycle of six platform calls per distance
    operation, in the order of the calls, and nothing for
    [update_air_temp]; each distance operation consumes exactly one reply of
    the echo line, failed or not, so no measurement is retried or skipped. *)
Theorem session_log (calls : list call) (self : HCSR04) (b : board) :
  events (snd (session calls (self, b))) = events b ++ session_events self calls
  /\ (forall n, echo_tape (snd (session calls (self, b))) n
                = echo_tape b (n + cycles calls)%nat)
  /\ length (events (snd (session calls (self, b))))
     = (length (events b) + 6 * cycles calls)%nat.
Proof.
  destruct (session_board_eq calls self b) as [He Ht].
  split; [exact He |]. split; [exact Ht |].
  rewrite He, length_app, session_events_length. reflexivity.
Qed.

(** ** The shape of the trigger pulse *)

Lemma high_is_pulse_app (l1 l2 : list event) :
  high_is_pulse l1 = true -> high_is_pulse l2 = true ->
  high_is_pulse (l1 ++ l2) = true.
Proof.
  intros H1 H2. induction l1 as [| e rest IH]; [exact H2 |].
  destruct e; cbn in *; auto.
  apply andb_true_iff in H1 as [Hhead Hrest].
  rewrite (IH Hrest), andb_true_r.
  destruct (Z.eqb v 0); [reflexivity |].
  destruct rest as [| [] [| [] rest']]; cbn in *; try discriminate.
  exact Hhead.
Qed.

Lemma high_is_pulse_cycle (self : HCSR04) :
  high_is_pulse (pulse_events self) = true.
Proof. cbn. rewrite Z.eqb_refl. reflexivity. Qed.

Lemma high_is_pulse_session (self : HCSR04) (calls : list call) :
  high_is_pulse (session_events self calls) = true.
Proof.
  unfold session_events.
  induction calls as [| c calls IH]; [reflexivity |].
  cbn [flat_map]. apply high_is_pulse_app; [| exact IH].
  destruct (is_measurement c); [apply high_is_pulse_cycle | reflexivity].
Qed.

(** A write of 1 that is not closed is seen. *)
Example high_is_pulse_sees_open_pulse :
  high_is_pulse [EvValue 5 0; EvSleepUs 5; EvValue 5 1; EvSleepUs 10] = false
  /\ high_is_pulse [EvValue 5 1; EvSleepUs 20; EvValue 5 0] = false.
Proof. split; reflexivity. Qed.

(** X12.  On a board whose log has no open pulse, the log after a
    successful construction and any calls has none either: the driver
    writes only 0 and 1 to the trigger, and each write of 1 is directly
    followed by [sleep_us(10)] and the write of 0, so that the trigger is
    never left high, also when the measurement then fails. *)
Theorem trigger_high_only_in_pulse (trigger_pin echo_pin timeout : Z) (t : R)
    (b0 b1 : board) (self0 : HCSR04) (calls : list call) :
  high_is_pulse (events b0) = true ->
  __init__ trigger_pin echo_pin timeout t b0 = (Ok self0, b1) ->
  high_is_pulse (events (snd (session calls (self0, b1)))) = true.
Proof.
  intros H0 H. apply init_success in H as (_ & _ & ->).
  destruct (session_board_eq calls self0
    {| events := events b0 ++ [EvPin trigger_pin OUT; EvValue trigger_pin 0;
                               EvPin echo_pin IN];
       echo_tape := echo_tape b0 |}) as [-> _].
  cbn [events]. apply high_is_pulse_app; [| apply high_is_pulse_session].
  apply high_is_pulse_app; [exact H0 | reflexivity].
Qed.

Lemma trigger_high_only_in_pulse_bench :
  high_is_pulse (events (fresh_board (Raise (OSError 110)))) = true
  /\ __init__ 5 18 default_echo_timeout_us default_air_temp
       (fresh_board (Raise (OSError 110)))
     = (Ok bench_sensor,
        {| events := [EvPin 5 OUT; EvValue 5 0; EvPin 18 IN];
           echo_tape := fun _ => Raise (OSError 110) |})
  /\ high_is_pulse
       (events (snd (session [DistanceMm; UpdateAirTemp 30; DistanceCm]
          (bench_sensor,
           {| events := [EvPin 5 OUT; EvValue 5 0; EvPin 18 IN];
              echo_tape := fun _ => Raise (OSError 110) |})))) = true.
Proof.
  assert (H0 : high_is_pulse (events (fresh_board (Raise (OSError 110)))) = true)
    by reflexivity.
  assert (H : __init__ 5 18 default_echo_timeout_us default_air_temp
                (fresh_board (Raise (OSError 110)))
              = (Ok bench_sensor,
                 {| events := [EvPin 5 OUT; EvValue 5 0; EvPin 18 IN];
                    echo_tape := fun _ => Raise (OSError 110) |})).
  { rewrite init_in; [reflexivity |].
    unfold in_working_range, default_air_temp. lra. }
  split; [exact H0 |]. split; [exact H |].
  exact (trigger_high_only_in_pulse _ _ _ _ _ _ _
           [DistanceMm; UpdateAirTemp 30; DistanceCm] H0 H).
Defined.

(** ** The two range checks *)

(** X13.  [update_air_temp] repeats the check of [_check_air_temp]: on the
    bounds of the same sensor, whatever they are, both accept the same
    temperatures and raise the same exception on the others; an accepted
    temperature is returned by the one and stored by the other, unchanged. *)
Theorem range_checks_agree (self : HCSR04) (t : R) (b : board) :
  failure (fst (update_air_temp t self))
  = failure (fst (_check_air_temp (min_working_temp self)
                    (max_working_temp self) t b))
  /\ (is_ok (fst (update_air_temp t self)) = true ->
      fst (_check_air_temp (min_working_temp self) (max_working_temp self) t b)
        = Ok t
      /\ air_temperature (snd (update_air_temp t self)) = t)
  /\ snd (_check_air_temp (min_working_temp self) (max_working_temp self) t b)
     = b.
Proof.
  destruct (update_air_temp_cases self t) as [[Hin ->] | [Hout ->]].
  - rewrite check_air_temp_in by exact Hin. cbn. auto.
  - rewrite check_air_temp_out by exact Hout. cbn.
    repeat split; auto; discriminate.
Qed.

(** * The class on binary64 floats *)

Section Binary64Facts.
Import PrimFloat SpecFloat FloatOps FloatAxioms.
#[local] Set Warnings "-inexact-float".

(** ** Mantissas and their number of bits *)

Lemma digits2_pos_size (p : positive) : digits2_pos p = Pos.size p.
Proof. induction p; cbn; congruence. Qed.

Lemma digits2_pos_iter_xO (q k : positive) :
  digits2_pos (Pos.iter xO q k) = (digits2_pos q + k)%positive.
Proof.
  induction k using Pos.peano_ind.
  - cbn. lia.
  - rewrite Pos.iter_succ. cbn. rewrite IHk. lia.
Qed.

Lemma Zpos_iter_xO (q k : positive) :
  Zpos (Pos.iter xO q k) = (Zpos q * 2 ^ Zpos k)%Z.
Proof.
  induction k using Pos.peano_ind.
  - cbn. lia.
  - rewrite Pos.iter_succ, Pos2Z.inj_xO, IHk, Pos2Z.inj_succ, Z.pow_succ_r by lia.
    lia.
Qed.

Lemma digits2_pos_le_53 (q : positive) :
  (Zpos q < 2 ^ 53)%Z -> (Zpos (digits2_pos q) <= 53)%Z.
Proof.
  intros H. rewrite digits2_pos_size.
  pose proof (Pos.size_le q) as Hle.
  assert (Hz : (2 ^ Zpos (Pos.size q) <= 2 * Zpos q)%Z).
  { rewrite <- Pos2Z.inj_pow. change (2 * Zpos q)%Z with (Zpos q~0). lia. }
  destruct (Z_le_gt_dec (Zpos (Pos.size q)) 53) as [Hd | Hd]; [exact Hd |].
  assert (2 ^ 54 <= 2 ^ Zpos (Pos.size q))%Z by (apply Z.pow_le_mono_r; lia).
  change (2 ^ 54)%Z with (2 * 2 ^ 53)%Z in *. lia.
Qed.

Lemma digits2_pos_lt_pow (m : positive) :
  (Zpos (digits2_pos m) <= 53)%Z -> (Zpos m < 2 ^ 53)%Z.
Proof.
  intros H. rewrite digits2_pos_size in H.
  pose proof (Pos.size_gt m) as Hgt.
  assert (Hz : (Zpos m < 2 ^ Zpos (Pos.size m))%Z).
  { rewrite <- Pos2Z.inj_pow. lia. }
  assert (2 ^ Zpos (Pos.size m) <= 2 ^ 53)%Z by (apply Z.pow_le_mono_r; lia).
  lia.
Qed.

(** A mantissa of 53 bits with an exponent in range is kept as it is. *)
Lemma binary_round_aux_exact (s : bool) (mz : positive) (ez : Z) :
  Zpos (digits2_pos mz) = 53%Z -> (-1074 <= ez <= 971)%Z ->
  binary_round_aux prec emax s (Zpos mz) ez loc_Exact = S754_finite s mz ez.
Proof.
  intros Hd He.
  assert (Hf : (fexp prec emax (Zdigits2 (Zpos mz) + ez) - ez = 0)%Z).
  { cbn [Zdigits2]. rewrite Hd. unfold fexp, emin, prec, emax. lia. }
  unfold binary_round_aux, shr_fexp. rewrite Hf.
  cbn [shr shr_record_of_loc shr_m loc_of_shr_record round_nearest_even].
  rewrite Hf. cbn [shr shr_record_of_loc shr_m].
  replace (Z.leb ez (emax - prec)) with true; [reflexivity |].
  symmetry. apply Z.leb_le. unfold prec, emax. lia.
Qed.

(** An integer below 2^53 becomes the float of the same value. *)
Lemma binary_round_small (s : bool) (q : positive) :
  (Zpos q < 2 ^ 53)%Z ->
  exists (q' : positive) (e' : Z),
    binary_round prec emax s q 0 = S754_finite s q' e'
    /\ valid_binary (S754_finite s q' e') = true
    /\ (e' <= 0)%Z
    /\ Zpos q' = (Zpos q * 2 ^ (- e'))%Z.
Proof.
  intros Hq. pose proof (digits2_pos_le_53 q Hq) as Hd.
  assert (Hvalid : forall mz ez, Zpos (digits2_pos mz) = 53%Z ->
            (-1074 <= ez <= 971)%Z ->
            valid_binary (S754_finite s mz ez) = true).
  { intros mz ez Hm He. cbn. unfold bounded, canonical_mantissa.
    rewrite Hm. apply andb_true_iff. split.
    - apply Z.eqb_eq. unfold fexp, emin, prec, emax. lia.
    - apply Z.leb_le. unfold prec, emax. lia. }
  unfold binary_round.
  assert (Hf : fexp prec emax (Zpos (digits2_pos q) + 0)
               = (Zpos (digits2_pos q) - 53)%Z).
  { unfold fexp, emin, prec, emax. lia. }
  rewrite Hf. unfold shl_align.
  destruct (Zpos (digits2_pos q) - 53 - 0)%Z as [| k | k] eqn:Hk; [| lia |].
  - assert (Hd53 : Zpos (digits2_pos q) = 53%Z) by lia.
    exists q, 0%Z. rewrite binary_round_aux_exact by (auto; lia).
    split; [reflexivity |]. split; [apply Hvalid; auto; lia |].
    split; [lia |]. cbn. lia.
  - assert (Hdk : Zpos (digits2_pos (Pos.iter xO q k)) = 53%Z)
      by (rewrite digits2_pos_iter_xO; lia).
    exists (Pos.iter xO q k), (Zpos (digits2_pos q) - 53)%Z.
    rewrite binary_round_aux_exact by (auto; lia).
    split; [reflexivity |]. split; [apply Hvalid; auto; lia |].
    split; [lia |]. rewrite Zpos_iter_xO. f_equal. f_equal. lia.
Qed.

(** ** The value of [int(x // 2)] *)

(** [int] gives back the integer that [binary_normalize] turned into a
    float, below 2^53. *)
Lemma int_of_small_integer (n : Z) :
  (Z.abs n < 2 ^ 53)%Z ->
  Binary64.int (SF2Prim (binary_normalize prec emax n 0 false)) = Ok n.
Proof.
  intros Hn. destruct n as [| q | q]; cbn [binary_normalize].
  - reflexivity.
  - destruct (binary_round_small false q) as (q' & e' & -> & Hv & He & Hq');
      [cbn in Hn; lia |].
    unfold Binary64.int. rewrite (Prim2SF_SF2Prim _ Hv).
    destruct (Z.leb_spec 0 e').
    + replace e' with 0%Z in * by lia. cbn in *. f_equal. lia.
    + unfold Binary64.signed. cbn [cond_Zopp]. rewrite Hq'.
      rewrite Z.div_mul by (apply Z.pow_nonzero; lia). reflexivity.
  - destruct (binary_round_small true q) as (q' & e' & -> & Hv & He & Hq');
      [cbn in Hn; lia |].
    unfold Binary64.int. rewrite (Prim2SF_SF2Prim _ Hv).
    destruct (Z.leb_spec 0 e').
    + replace e' with 0%Z in * by lia. cbn in *. f_equal. lia.
    + unfold Binary64.signed. cbn [cond_Zopp]. rewrite Hq'.
      rewrite Z.div_mul by (apply Z.pow_nonzero; lia). reflexivity.
Qed.

(** A finite float has at most 53 bits, and exactly 53 above exponent 0. *)
Lemma finite_float_bits (x : float) (s : bool) (m : positive) (e : Z) :
  Prim2SF x = S754_finite s m e ->
  (Zpos m < 2 ^ 53)%Z
  /\ ((1 <= e)%Z -> valid_binary (S754_finite s m (e - 1)) = true).
Proof.
  intros H. pose proof (Prim2SF_valid x) as Hv. rewrite H in Hv.
  cbn in Hv. unfold bounded, canonical_mantissa in Hv.
  apply andb_true_iff in Hv as [Hc Hb].
  apply Z.eqb_eq in Hc. apply Z.leb_le in Hb.
  unfold fexp, emin, prec, emax in Hc, Hb.
  split.
  - apply digits2_pos_lt_pow. lia.
  - intros He. cbn. unfold bounded, canonical_mantissa.
    apply andb_true_iff. split.
    + apply Z.eqb_eq. unfold fexp, emin, prec, emax. lia.
    + apply Z.leb_le. unfold prec, emax. lia.
Qed.

(** [int(x // 2)] on a finite float: the floor of half its value. *)
Lemma int_floordiv2 (x : float) (s : bool) (m : positive) (e : Z) :
  Prim2SF x = S754_finite s m e ->
  Binary64.int (Binary64.floordiv2 x) = Ok (Binary64.half_floor s m e).
Proof.
  intros H. destruct (finite_float_bits x s m e H) as [Hm Hhalf].
  unfold Binary64.floordiv2, Binary64.half_floor. rewrite H.
  destruct (Z.leb_spec 1 e) as [He | He].
  - unfold Binary64.int. rewrite (Prim2SF_SF2Prim _ (Hhalf He)).
    replace (0 <=? e - 1)%Z with true by (symmetry; apply Z.leb_le; lia).
    reflexivity.
  - apply int_of_small_integer.
    assert (Hpow : (2 <= 2 ^ (1 - e))%Z).
    { change 2%Z with (2 ^ 1)%Z at 1. apply Z.pow_le_mono_r; lia. }
    assert (Hbound : (- Zpos m <= Binary64.signed s m / 2 ^ (1 - e) <= Zpos m)%Z).
    { destruct s; cbn [Binary64.signed cond_Zopp]; split.
      - apply Z.div_le_lower_bound; [lia |]. nia.
      - transitivity 0%Z; [| lia]. apply Z.div_le_upper_bound; lia.
      - transitivity 0%Z; [lia |]. apply Z.div_pos; lia.
      - apply Z.div_le_upper_bound; [lia |]. nia. }
    lia.
Qed.

(** ** Floors on the reals *)

Lemma powerRZ_2_nonneg (k : Z) : (0 <= k)%Z -> powerRZ 2 k = IZR (2 ^ k).
Proof.
  intros Hk. destruct k as [| p | p]; [reflexivity | | lia].
  cbn [powerRZ]. rewrite <- (positive_nat_Z p).
  rewrite <- pow_IZR. reflexivity.
Qed.

Lemma Zfloor_div (a b : Z) : (0 < b)%Z -> Zfloor (IZR a / IZR b) = (a / b)%Z.
Proof.
  intros Hb. apply Zfloor_eq.
  pose proof (Z.div_mod a b ltac:(lia)) as Hdm.
  pose proof (Z.mod_pos_bound a b Hb) as Hr.
  assert (HbR : (0 < IZR b)%R) by (apply IZR_lt; exact Hb).
  assert (Ha : IZR a = (IZR b * IZR (a / b) + IZR (a mod b))%R).
  { rewrite <- mult_IZR, <- plus_IZR. f_equal. exact Hdm. }
  assert (Hr0 : (0 <= IZR (a mod b))%R) by (apply IZR_le; lia).
  assert (Hr1 : (IZR (a mod b) < IZR b)%R) by (apply IZR_lt; lia).
  rewrite Ha. split.
  - apply (Rmult_le_reg_r (IZR b)); [exact HbR |].
    unfold Rdiv. rewrite Rmult_assoc, Rinv_l by lra. lra.
  - apply (Rmult_lt_reg_r (IZR b)); [exact HbR |].
    unfold Rdiv. rewrite Rmult_assoc, Rinv_l by lra. lra.
Qed.

(** [half_floor] is the floor of half the value. *)
Lemma half_floor_spec (s : bool) (m : positive) (e : Z) :
  Binary64.half_floor s m e
  = Zfloor (IZR (Binary64.signed s m) * powerRZ 2 e / 2).
Proof.
  unfold Binary64.half_floor. destruct (Z.leb_spec 1 e) as [He | He].
  - assert (Hp : powerRZ 2 e = (2 * IZR (2 ^ (e - 1)))%R).
    { replace e with (1 + (e - 1))%Z at 1 by lia.
      rewrite powerRZ_add by lra. rewrite (powerRZ_2_nonneg (e - 1)) by lia.
      change (powerRZ 2 1) with (2 * 1)%R. lra. }
    rewrite Hp.
    replace (IZR (Binary64.signed s m) * (2 * IZR (2 ^ (e - 1))) / 2)%R
      with (IZR (Binary64.signed s m * 2 ^ (e - 1))).
    + symmetry. apply ZfloorZ.
    + rewrite mult_IZR. lra.
  - assert (Hp : powerRZ 2 e = (/ IZR (2 ^ (- e)))%R).
    { replace e with (- (- e))%Z at 1 by lia.
      rewrite powerRZ_neg', powerRZ_2_nonneg by lia. reflexivity. }
    rewrite Hp.
    replace (IZR (Binary64.signed s m) * / IZR (2 ^ (- e)) / 2)%R
      with (IZR (Binary64.signed s m) / IZR (2 ^ (1 - e)))%R.
    + symmetry. apply Zfloor_div. apply Z.pow_pos_nonneg; lia.
    + replace (1 - e)%Z with (Z.succ (- e)) by lia.
      rewrite Z.pow_succ_r by lia. rewrite mult_IZR.
      assert (IZR (2 ^ (- e)) <> 0%R).
      { apply not_0_IZR. apply Z.pow_nonzero; lia. }
      field. auto.
Qed.

(** A finite float is a zero or has a mantissa and an exponent. *)
Lemma finite_float_cases (x : float) :
  is_finite x = true ->
  (exists s, Prim2SF x = S754_zero s)
  \/ (exists s m e, Prim2SF x = S754_finite s m e).
Proof.
  unfold is_finite. intros H. apply negb_true_iff, orb_false_iff in H as [Hn Hi].
  unfold Prim2SF. rewrite Hn, Hi.
  destruct (is_zero x); [left; eauto |].
  destruct (Z.frexp x) as [r ex].
  destruct (shr_fexp prec emax (Uint63Axioms.to_Z (normfr_mantissa r))
              (ex - prec) loc_Exact) as [mrs e'].
  destruct (shr_m mrs); [left | right | left]; eauto.
Qed.

(** ** The measurement and the distances *)

Lemma b64_send_pulse_and_wait_eq (self : Binary64.HCSR04) (b : board) :
  Binary64._send_pulse_and_wait self b =
  (checked_pulse (echo_tape b 0%nat),
   {| events := events b ++
        [ EvValue (machine.id (Binary64.trigger self)) 0;
          EvSleepUs 5;
          EvValue (machine.id (Binary64.trigger self)) 1;
          EvSleepUs 10;
          EvValue (machine.id (Binary64.trigger self)) 0;
          EvTimePulseUs (machine.id (Binary64.echo self)) 1
            (Binary64.echo_timeout_us self) ];
      echo_tape := fun n => echo_tape b (S n) |}).
Proof.
  unfold Binary64._send_pulse_and_wait, checked_pulse.
  unfold bind, try_except, machine.value, utime.sleep_us, log,
    machine.time_pulse_us, raise, ret.
  cbn. rewrite <- !app_assoc. cbn.
  destruct (echo_tape b 0%nat) as [p | ex]; [destruct (Z.ltb p 0) |]; reflexivity.
Qed.

(** C5, amended.  For a measured pulse width whose product with
    [sound_speed] is a finite float, [distance_mm] returns the integer floor
    of half that product.  The product is the binary64 one, of the speed and
    of the float of the pulse width, rounded to the nearest float; the
    halving and the floor that follow are exact. *)
Theorem distance_mm_floor_of_rounded_product
    (self : Binary64.HCSR04) (b b' : board) (pulse_us : Z) (pulse : float) :
  Binary64._send_pulse_and_wait self b = (Ok pulse_us, b') ->
  Binary64.float_of_int pulse_us = Ok pulse ->
  is_finite (Binary64.sound_speed self * pulse) = true ->
  Binary64.distance_mm self b
  = (Ok (Zfloor (Binary64.float_value (Binary64.sound_speed self * pulse)
                 / 2)),
     b').
Proof.
  intros H Hp Hfin. unfold Binary64.distance_mm, bind. rewrite H.
  unfold lift at 1. rewrite Hp. unfold lift, ret.
  destruct (finite_float_cases _ Hfin) as [[s E] | (s & m & e & E)].
  - unfold Binary64.float_value, Binary64.floordiv2, Binary64.int.
    rewrite E. rewrite E.
    replace (0 / 2)%R with (IZR 0) by lra. rewrite ZfloorZ. reflexivity.
  - rewrite (int_floordiv2 _ _ _ _ E), half_floor_spec.
    unfold Binary64.float_value. rewrite E. reflexivity.
Qed.

Lemma distance_mm_floor_of_rounded_product_1000us :
  Binary64._send_pulse_and_wait Binary64.bench_sensor (fresh_board (Ok 1000%Z))
    = (Ok 1000%Z,
       snd (Binary64._send_pulse_and_wait Binary64.bench_sensor
              (fresh_board (Ok 1000%Z))))
  /\ Binary64.float_of_int 1000 = Ok 1000%float
  /\ is_finite (Binary64.sound_speed Binary64.bench_sensor * 1000) = true
  /\ Binary64.distance_mm Binary64.bench_sensor (fresh_board (Ok 1000%Z))
     = (Ok (Zfloor (Binary64.float_value
                      (Binary64.sound_speed Binary64.bench_sensor * 1000) / 2)),
        snd (Binary64._send_pulse_and_wait Binary64.bench_sensor
               (fresh_board (Ok 1000%Z)))).
Proof.
  assert (H : Binary64._send_pulse_and_wait Binary64.bench_sensor
                (fresh_board (Ok 1000%Z))
              = (Ok 1000%Z,
                 snd (Binary64._send_pulse_and_wait Binary64.bench_sensor
                        (fresh_board (Ok 1000%Z))))) by reflexivity.
  assert (Hp : Binary64.float_of_int 1000 = Ok 1000%float) by reflexivity.
  assert (Hf : is_finite (Binary64.sound_speed Binary64.bench_sensor * 1000)
               = true) by reflexivity.
  split; [exact H |]. split; [exact Hp |]. split; [exact Hf |].
  exact (distance_mm_floor_of_rounded_product _ _ _ _ _ H Hp Hf).
Defined.

(** C5, where it fails as stated.  On the sensor built with
    [air_temp=41.88915885456865], a pulse of 2928 us gives 521 from
    [distance_mm], while the floor of the stored [sound_speed] times 2928
    over 2, taken in exact arithmetic, is 520: the product is rounded up to
    the float 1042 before the floor. *)
Lemma distance_mm_rounds_before_floor :
  fst (Binary64.__init__ 5 18 default_echo_timeout_us 41.88915885456865
         (fresh_board (Ok 2928%Z))) = Ok Binary64.warm_sensor
  /\ fst (Binary64.distance_mm Binary64.warm_sensor (fresh_board (Ok 2928%Z)))
     = Ok 521%Z
  /\ Zfloor (Binary64.float_value (Binary64.sound_speed Binary64.warm_sensor)
             * IZR 2928 / 2) = 520%Z.
Proof.
  split; [reflexivity |]. split; [reflexivity |].
  assert (E : Prim2SF (Binary64.sound_speed Binary64.warm_sensor)
              = S754_finite false 6410861764644886 (-54)) by reflexivity.
  unfold Binary64.float_value. rewrite E.
  assert (Hp : powerRZ 2 (-54) = (/ IZR (2 ^ 54))%R).
  { change (-54)%Z with (Z.opp 54). rewrite powerRZ_neg', powerRZ_2_nonneg by lia.
    reflexivity. }
  rewrite Hp.
  replace (IZR (Binary64.signed false 6410861764644886) * / IZR (2 ^ 54)
           * IZR 2928 / 2)%R
    with (IZR (6410861764644886 * 1464) / IZR (2 ^ 54))%R.
  - rewrite Zfloor_div by reflexivity. reflexivity.
  - rewrite mult_IZR. cbn [Binary64.signed cond_Zopp].
    assert (IZR (2 ^ 54) <> 0%R) by (apply not_0_IZR; discriminate).
    field. auto.
Qed.

(** At 20 degrees, 1000 us are 171 mm and 17.164427814159723 cm. *)
Example distance_mm_binary64_values :
  fst (Binary64.distance_mm Binary64.bench_sensor (fresh_board (Ok 1000%Z)))
    = Ok 171%Z
  /\ fst (Binary64.distance_cm Binary64.bench_sensor (fresh_board (Ok 1000%Z)))
     = Ok 17.164427814159723%float.
Proof. split; reflexivity. Qed.

(** On the sensor built with a NaN temperature the measurement succeeds;
    [distance_mm] then raises [ValueError] from [int], and [distance_cm]
    returns NaN. *)
Example distance_on_nan_speed :
  fst (Binary64._send_pulse_and_wait Binary64.nan_sensor (fresh_board (Ok 1000%Z)))
    = Ok 1000%Z
  /\ fst (Binary64.distance_mm Binary64.nan_sensor (fresh_board (Ok 1000%Z)))
     = Raise ValueError
  /\ fst (Binary64.distance_cm Binary64.nan_sensor (fresh_board (Ok 1000%Z)))
     = Ok nan.
Proof. repeat split; reflexivity. Qed.

(** A failure of the measurement is the failure of each distance
    operation on floats too, where [float] and [int] can fail besides. *)
Lemma b64_distance_failures_propagate (self : Binary64.HCSR04) (b : board)
    (ex : exn) :
  fst (Binary64._send_pulse_and_wait self b) = Raise ex ->
  fst (Binary64.distance_mm self b) = Raise ex
  /\ fst (Binary64.distance_cm self b) = Raise ex
  /\ fst (Binary64.distance_in self b) = Raise ex.
Proof.
  intros H.
  unfold Binary64.distance_mm, Binary64.distance_cm, Binary64.distance_in, bind.
  destruct (Binary64._send_pulse_and_wait self b) as [r b'].
  cbn in H. subst r. auto.
Qed.

(** ** Comparisons of floats *)

Lemma SFcompare_antisym (x y : spec_float) :
  SFcompare y x = option_map CompOpp (SFcompare x y).
Proof.
  destruct x as [sx | sx | | sx mx ex], y as [sy | sy | | sy my ey];
    try destruct sx; try destruct sy; cbn; try reflexivity.
  - rewrite (Z.compare_antisym ex ey).
    destruct (ex ?= ey)%Z; cbn; try reflexivity.
    rewrite CompOpp_involutive. f_equal.
    exact (Pos.compare_cont_antisym my mx Eq).
  - rewrite (Z.compare_antisym ex ey).
    destruct (ex ?= ey)%Z; cbn; try reflexivity.
    f_equal. symmetry. exact (Pos.compare_cont_antisym mx my Eq).
Qed.

Lemma SFltb_negb_SFleb (x y : spec_float) :
  x <> S754_nan -> y <> S754_nan -> SFltb x y = negb (SFleb y x).
Proof.
  intros Hx Hy. unfold SFltb, SFleb. rewrite (SFcompare_antisym x y).
  assert (H : exists c, SFcompare x y = Some c).
  { destruct x, y; cbn; try congruence; eauto. }
  destruct H as [c ->]. destruct c; reflexivity.
Qed.

Lemma Prim2SF_not_nan (t : float) : is_nan t = false -> Prim2SF t <> S754_nan.
Proof.
  intros H. unfold Prim2SF. rewrite H.
  destruct (is_zero t); [discriminate |].
  destruct (is_infinity t); [discriminate |].
  destruct (Z.frexp t) as [r ex].
  destruct (shr_fexp prec emax (Uint63Axioms.to_Z (normfr_mantissa r))
              (ex - prec) loc_Exact) as [mrs e'].
  destruct (shr_m mrs); discriminate.
Qed.

(** On numbers, the guard of the range checks is false exactly inside the
    closed interval. *)
Lemma range_guard_on_numbers (lo hi t : float) :
  is_nan lo = false -> is_nan hi = false -> is_nan t = false ->
  ((t <? lo) || (hi <? t) = false <-> (lo <=? t) && (t <=? hi) = true)%float.
Proof.
  intros Hlo Hhi Ht.
  apply Prim2SF_not_nan in Hlo, Hhi, Ht.
  rewrite !ltb_spec, !leb_spec.
  rewrite (SFltb_negb_SFleb _ _ Ht Hlo), (SFltb_negb_SFleb _ _ Hhi Ht).
  destruct (SFleb (Prim2SF lo) (Prim2SF t)), (SFleb (Prim2SF t) (Prim2SF hi));
    cbn; intuition congruence.
Qed.

(** ** The range check on floats *)

Lemma b64_init_success (trigger_pin echo_pin timeout : Z) (t : float)
    (b b' : board) (self : Binary64.HCSR04) :
  Binary64.__init__ trigger_pin echo_pin timeout t b = (Ok self, b') ->
  Binary64.air_temperature self = t /\ Binary64.passes_guard self.
Proof.
  unfold Binary64.__init__, Binary64._check_air_temp, Binary64._get_sound_speed,
    Binary64.passes_guard, bind, try_except, lift, raise, ret.
  destruct ((t <? -15) || (70 <? t))%float eqn:G; [discriminate |].
  destruct (Binary64.math_sqrt (t + 273.15)%float); [| discriminate].
  cbn. intros H. injection H as <- _. cbn. auto.
Qed.

Lemma b64_update_cases (self : Binary64.HCSR04) (t : float) :
  (((t <? Binary64.min_working_temp self)
    || (Binary64.max_working_temp self <? t) = false)%float
   /\ Binary64.update_air_temp t self
      = (Ok tt, Binary64.set_air_temperature self t))
  \/ (((t <? Binary64.min_working_temp self)
       || (Binary64.max_working_temp self <? t) = true)%float
      /\ Binary64.update_air_temp t self
         = (Raise (Exception "temperature out of range"), self)).
Proof.
  unfold Binary64.update_air_temp, try_except, bind, get.
  destruct ((t <? Binary64.min_working_temp self)
            || (Binary64.max_working_temp self <? t))%float; [right | left];
    split; reflexivity.
Qed.

Lemma b64_do_call_guard (st : Binary64.HCSR04 * board) (c : Binary64.call) :
  Binary64.passes_guard (fst st) -> Binary64.passes_guard (fst (Binary64.do_call st c)).
Proof.
  destruct st as [self b]. destruct c; cbn; auto.
  intros (Hmin & Hmax & Hg).
  destruct (b64_update_cases self temperature) as [[G ->] | [_ ->]]; cbn.
  - unfold Binary64.passes_guard. cbn. rewrite Hmin, Hmax in G. auto.
  - unfold Binary64.passes_guard. auto.
Qed.

Lemma b64_session_guard (calls : list Binary64.call)
    (st : Binary64.HCSR04 * board) :
  Binary64.passes_guard (fst st) -> Binary64.passes_guard (fst (Binary64.session calls st)).
Proof.
  revert st. induction calls as [| c calls IH]; intros st H; cbn; [exact H |].
  apply IH. apply b64_do_call_guard. exact H.
Qed.

(** C3, evaluated on the code where it fails.  NaN is not in [-15, 70],
    yet both comparisons of the guard are false on it: construction with a
    NaN temperature succeeds, with NaN as temperature and as speed of
    sound, and [update_air_temp] accepts NaN and stores it.  On every float
    that is a number the guard is false exactly inside [-15, 70]. *)
Theorem nan_temperature_is_accepted (b : board) :
  (forall t : float,
     is_nan t = false ->
     ((t <? -15) || (70 <? t) = false <-> (-15 <=? t) && (t <=? 70) = true)%float)
  /\ ((-15 <=? nan) && (nan <=? 70) = false)%float
  /\ Binary64.__init__ 5 18 default_echo_timeout_us nan b
     = (Ok Binary64.nan_sensor,
        {| events := events b ++ [EvPin 5 OUT; EvValue 5 0; EvPin 18 IN];
           echo_tape := echo_tape b |})
  /\ Binary64.update_air_temp nan Binary64.bench_sensor
     = (Ok tt, Binary64.set_air_temperature Binary64.bench_sensor nan)
  /\ Binary64.air_temperature
       (snd (Binary64.update_air_temp nan Binary64.bench_sensor)) = nan.
Proof.
  split; [intros t Ht; apply range_guard_on_numbers; auto |].
  split; [reflexivity |]. split; [| split; reflexivity].
  unfold Binary64.__init__, bind at 1.
  assert (E : Binary64._check_air_temp (-15) 70 nan b = (Ok nan, b))
    by reflexivity.
  rewrite E. unfold bind at 1.
  assert (E2 : Binary64._get_sound_speed nan b = (Ok nan, b)) by reflexivity.
  rewrite E2. cbn. rewrite <- !app_assoc. reflexivity.
Qed.

(** X2.  After a successful construction and any calls, accepted or
    rejected, the stored [air_temperature] is in [-15, 70] or is NaN: it
    passes the guard of the range checks, which only NaN passes outside
    the interval. *)
Theorem stored_temperature_in_range_or_nan
    (trigger_pin echo_pin timeout : Z) (t : float) (b0 b1 : board)
    (self0 : Binary64.HCSR04) (calls : list Binary64.call) :
  Binary64.__init__ trigger_pin echo_pin timeout t b0 = (Ok self0, b1) ->
  is_nan (Binary64.air_temperature
            (fst (Binary64.session calls (self0, b1)))) = true
  \/ ((-15 <=? Binary64.air_temperature
                 (fst (Binary64.session calls (self0, b1))))
      && (Binary64.air_temperature
            (fst (Binary64.session calls (self0, b1))) <=? 70) = true)%float.
Proof.
  intros H. apply b64_init_success in H as [_ H].
  apply (b64_session_guard calls (self0, b1)) in H.
  destruct H as (_ & _ & G).
  destruct (is_nan (Binary64.air_temperature
                      (fst (Binary64.session calls (self0, b1))))) eqn:N;
    [left; reflexivity | right].
  apply (range_guard_on_numbers (-15) 70); auto.
Qed.

Lemma stored_temperature_in_range_or_nan_bench :
  Binary64.__init__ 5 18 default_echo_timeout_us 20 (fresh_board (Ok 1000%Z))
    = (Ok Binary64.bench_sensor,
       {| events := [EvPin 5 OUT; EvValue 5 0; EvPin 18 IN];
          echo_tape := fun _ => Ok 1000%Z |})
  /\ (is_nan (Binary64.air_temperature
               (fst (Binary64.session
                  [Binary64.UpdateAirTemp 71; Binary64.DistanceIn;
                   Binary64.UpdateAirTemp nan]
                  (Binary64.bench_sensor,
                   {| events := [EvPin 5 OUT; EvValue 5 0; EvPin 18 IN];
                      echo_tape := fun _ => Ok 1000%Z |})))) = true
      \/ ((-15 <=? Binary64.air_temperature
               (fst (Binary64.session
                  [Binary64.UpdateAirTemp 71; Binary64.DistanceIn;
                   Binary64.UpdateAirTemp nan]
                  (Binary64.bench_sensor,
                   {| events := [EvPin 5 OUT; EvValue 5 0; EvPin 18 IN];
                      echo_tape := fun _ => Ok 1000%Z |}))))
          && (Binary64.air_temperature
               (fst (Binary64.session
                  [Binary64.UpdateAirTemp 71; Binary64.DistanceIn;
                   Binary64.UpdateAirTemp nan]
                  (Binary64.bench_sensor,
                   {| events := [EvPin 5 OUT; EvValue 5 0; EvPin 18 IN];
                      echo_tape := fun _ => Ok 1000%Z |}))) <=? 70) = true)%float).
Proof.
  assert (H : Binary64.__init__ 5 18 default_echo_timeout_us 20
                (fresh_board (Ok 1000%Z))
              = (Ok Binary64.bench_sensor,
                 {| events := [EvPin 5 OUT; EvValue 5 0; EvPin 18 IN];
                    echo_tape := fun _ => Ok 1000%Z |})) by reflexivity.
  split; [exact H |].
  exact (stored_temperature_in_range_or_nan _ _ _ _ _ _ _
           [Binary64.UpdateAirTemp 71; Binary64.DistanceIn;
            Binary64.UpdateAirTemp nan] H).
Defined.

End Binary64Facts.
